(** * katagollum web front end: coordinate math, board reconciliation and
      API error policy

    A shallow embedding of the TypeScript sources of the web client
    (the API client [lib/api], the board renderer [GoBoard] and the page
    controller [app/page.tsx]) together with the properties the
    specification states about them.

    Conventions of the embedding:
    - a JavaScript string is a [string]; each [ascii] stands for one UTF-16
      code unit below 256 (every coordinate the application produces is
      ASCII);
    - an integral JavaScript number (board size, row, column, char code,
      message id) is a [Z]; [NaN] is the [None] of an [option Z]; integers
      are exact below 2^53, far above any board coordinate;
    - a number that is only stored and tested for truthiness (komi) is a
      primitive [float];
    - a call that may throw or an awaited promise that may reject is a
      [completion]. *)

From Stdlib Require Import ZArith Lia Bool List Ascii String.
From Stdlib Require Import Decimal DecimalString DecimalPos.
From Stdlib Require Import Floats.PrimFloat Uint63.
From stdpp Require Import base list.
Import ListNotations.

Local Open Scope string_scope.
Local Open Scope Z_scope.

(** ** Completions: values or thrown exceptions *)

Inductive exn : Type :=
  | TypeError
  | SyntaxError
  | TimeoutError
  | RangeError
  | Error (message : string).

Inductive completion (A : Type) : Type :=
  | Return (a : A)
  | Throw (e : exn).
Arguments Return {A} a.
Arguments Throw {A} e.

#[global] Instance completion_ret : MRet completion := fun A a => Return a.
#[global] Instance completion_bind : MBind completion := fun A B k m =>
  match m with
  | Return a => k a
  | Throw e => Throw e
  end.

(** [try { body } catch (err) { handler }] *)
Definition try_catch {A} (body : completion A) (handler : exn -> completion A)
  : completion A :=
  match body with
  | Return a => Return a
  | Throw e => handler e
  end.

(** ** JavaScript string primitives *)

Module JS.

Definition code (c : ascii) : Z := Z.of_N (N_of_ascii c).

(** [String.fromCharCode(n)], for code units of the embedding's alphabet. *)
Definition fromCharCode (n : Z) : ascii := ascii_of_N (Z.to_N n).

(** Code unit 0 of [c.toUpperCase()]: ASCII and Latin-1 lower-case letters
    move down by 32; the three Latin-1 letters whose upper case leaves
    Latin-1 are the micro sign (U+039C), sharp s ("SS") and y with
    diaeresis (U+0178). *)
Definition upper_code (c : ascii) : Z :=
  let n := code c in
  if (97 <=? n) && (n <=? 122) then n - 32
  else if n =? 181 then 924
  else if n =? 223 then 83
  else if (224 <=? n) && (n <=? 254) && negb (n =? 247) then n - 32
  else if n =? 255 then 376
  else n.

(** White space and line terminators skipped by [parseInt]. *)
Definition is_space (c : ascii) : bool :=
  let n := code c in
  ((9 <=? n) && (n <=? 13)) || (n =? 32) || (n =? 160).

Fixpoint trim_start (s : string) : string :=
  match s with
  | String c r => if is_space c then trim_start r else s
  | EmptyString => s
  end.

(** Value of a digit in the given radix, if it is one. *)
Definition digit (radix : Z) (c : ascii) : option Z :=
  let n := code c in
  let v := if (48 <=? n) && (n <=? 57) then n - 48
           else if (97 <=? n) && (n <=? 122) then n - 87
           else if (65 <=? n) && (n <=? 90) then n - 55
           else radix in
  if v <? radix then Some v else None.

(** Longest prefix of radix digits, read most significant first;
    [acc] is [None] until a digit has been seen. *)
Fixpoint digits (radix : Z) (s : string) (acc : option Z) : option Z :=
  match s with
  | String c r =>
      match digit radix c with
      | Some d => digits radix r (Some (radix * default 0 acc + d))
      | None => acc
      end
  | EmptyString => acc
  end.

Definition hex_prefix (s : string) : bool :=
  match s with
  | String c0 (String c1 _) => (code c0 =? 48) && ((code c1 =? 120) || (code c1 =? 88))
  | _ => false
  end.

(** An optional leading sign: [-] (code 45) or [+] (code 43). *)
Definition sign_split (s : string) : Z * string :=
  match s with
  | String c r =>
      if code c =? 45 then (-1, r)
      else if code c =? 43 then (1, r)
      else (1, s)
  | EmptyString => (1, s)
  end.

(** [parseInt(s, radix)]; [radix = None] is the call with one argument.
    The result [None] is [NaN]. *)
Definition parseInt (s : string) (radix : option Z) : option Z :=
  let '(sign, s2) := sign_split (trim_start s) in
  let '(r, strip) :=
    match radix with
    | None => (10, true)
    | Some r => if r =? 0 then (10, true) else (r, r =? 16)
    end in
  if (r <? 2) || (36 <? r) then None
  else
    let '(r, s3) :=
      if strip && hex_prefix s2 then (16, substring 2 (String.length s2 - 2) s2)
      else (r, s2) in
    option_map (Z.mul sign) (digits r s3 None).

(** The numeral that [parseInt] reads in [s] starts with [0x] or [0X]. *)
Definition has_hex_prefix (s : string) : bool :=
  hex_prefix (snd (sign_split (trim_start s))).

(** [s.trim()]: white space and line terminators removed at both ends. *)
Fixpoint trim_end (s : string) : string :=
  match s with
  | String c r =>
      match trim_end r with
      | EmptyString => if is_space c then EmptyString else String c EmptyString
      | r' => String c r'
      end
  | EmptyString => EmptyString
  end.

Definition trim (s : string) : string := trim_end (trim_start s).

(** [s.split('\n')]: the pieces between line feeds (code 10), at least one. *)
Fixpoint split_lines (s : string) : list string :=
  match s with
  | EmptyString => [EmptyString]
  | String c r =>
      if code c =? 10 then EmptyString :: split_lines r
      else
        match split_lines r with
        | line :: lines => String c line :: lines
        | [] => [String c EmptyString]
        end
  end.

(** [String(n)] for an integer [n]. *)
Definition toString (n : Z) : string := NilZero.string_of_int (Z.to_int n).

End JS.


(** ** JavaScript values as [res.json()] delivers them *)

#[warnings="-register-all"]
Inductive value : Type :=
  | Undefined
  | Null
  | Bool (b : bool)
  | Num (x : float)
  | Str (s : string)
  | Arr (items : list value)
  | Obj (fields : list (string * value)).

(** Truthiness, the test behind [!x], [x || y] and [if (x)]. *)
Class Truthy (A : Type) := truthy : A -> bool.

#[global] Instance truthy_bool : Truthy bool := fun b => b.
#[global] Instance truthy_number : Truthy float :=
  fun x => negb (PrimFloat.is_zero x || PrimFloat.is_nan x).
#[global] Instance truthy_string : Truthy string :=
  fun s => match s with EmptyString => false | String _ _ => true end.
#[global] Instance truthy_array {A} : Truthy (list A) := fun _ => true.
#[global] Instance truthy_nullable {A} `{Truthy A} : Truthy (option A) := fun o =>
  match o with
  | Some a => truthy a
  | None => false
  end.
#[global] Instance truthy_value : Truthy value := fun v =>
  match v with
  | Undefined | Null => false
  | Bool b => truthy b
  | Num x => truthy x
  | Str s => truthy s
  | Arr _ | Obj _ => true
  end.

(** [x || y] where [x] comes through an optional chain [prev?.field]. *)
Definition or_else {A} `{Truthy A} (x : option A) (y : A) : A :=
  match x with
  | Some a => if truthy a then a else y
  | None => y
  end.

Fixpoint assoc (key : string) (fields : list (string * value)) : value :=
  match fields with
  | [] => Undefined
  | (k, v) :: rest => if String.eqb k key then v else assoc key rest
  end.

(** Property read [v.key] for the names the client reads ([result],
    [board], [board_size]): only a parsed object can hold them, and reading
    any property of [undefined] or [null] throws. *)
Definition get (v : value) (key : string) : completion value :=
  match v with
  | Undefined | Null => Throw TypeError
  | Obj fields => Return (assoc key fields)
  | Bool _ | Num _ | Str _ | Arr _ => Return Undefined
  end.

(** An integer as a number (exact below 2^53). *)
Definition number_of_Z (z : Z) : float :=
  if z <? 0 then PrimFloat.opp (PrimFloat.of_uint63 (Uint63.of_Z (- z)))
  else PrimFloat.of_uint63 (Uint63.of_Z z).

(** An array length as a number. *)
Definition number_of_length {A} (l : list A) : float :=
  number_of_Z (Z.of_nat (length l)).

(** ** API client ([lib/api]) *)

Module Api.

Record request := {
  url : string;
  method : string;
  headers : list (string * string);
  body : option value;          (* the object handed to JSON.stringify *)
  timeout_ms : option Z         (* AbortSignal.timeout(ms), if any *)
}.

(** A received response: status, the body as [text()] gives it and as
    [json()] parses it ([None]: the body is not JSON). *)
Record response := {
  status : Z;
  text : string;
  json_body : option value
}.

Definition ok (res : response) : bool := (200 <=? status res) && (status res <=? 299).

Definition json (res : response) : completion value :=
  match json_body res with
  | Some v => Return v
  | None => Throw SyntaxError
  end.

(** What the network does with a request. *)
Inductive outcome : Type :=
  | Responded (res : response)
  | NetworkFailure
  | TimedOut.

(** The object [getKataGoBoardState] returns, typed [KataGoBoardState] by an
    unchecked cast: the rows and the size are whatever the engine sent. *)
Record EngineBoard := {
  board : list value;
  board_size : value
}.

Section Client.

Variables API_BASE MCP_BASE : string.
Variable network : request -> outcome.

Definition fetch (req : request) : completion response :=
  match network req with
  | Responded res => Return res
  | NetworkFailure => Throw TypeError
  | TimedOut => Throw TimeoutError
  end.

Definition post (path : string) (payload : option value) : request :=
  {| url := API_BASE ++ path; method := "POST";
     headers := [("Content-Type", "application/json")];
     body := payload; timeout_ms := None |}.

Definition get_request (base path : string) (timeout : option Z) : request :=
  {| url := base ++ path; method := "GET"; headers := []; body := None;
     timeout_ms := timeout |}.



Definition getGameBoard_request (gameId : Z) : request :=
  get_request API_BASE ("/games/" ++ JS.toString gameId ++ "/board/") None.

Definition getGameBoard (gameId : Z) : completion value :=
  res ← fetch (getGameBoard_request gameId);
  json res.





(** [sendChatMessage(gameId, content, role = 'user')] *)
Definition sendChatMessage_request (gameId : Z) (content : string) (role : option string)
  : request :=
  let role := default "user" role in
  post "/chat/send_message/"
    (Some (Obj [("game_id", Num (number_of_Z gameId)); ("content", Str content);
                ("role", Str role)])).

Definition sendChatMessage (gameId : Z) (content : string) (role : option string)
  : completion value :=
  res ← fetch (sendChatMessage_request gameId content role);
  if negb (ok res) then
    let error := text res in
    Throw (Error ("API error: " ++ error))
  else json res.

Definition getKataGoBoardState_request : request :=
  get_request MCP_BASE "/board_state" (Some 10000).

Definition getKataGoBoardState : completion (option EngineBoard) :=
  try_catch
    (res ← fetch getKataGoBoardState_request;
     if negb (ok res) then Return None
     else
       data ← json res;
       result ← get data "result";
       if negb (truthy result) then Return None
       else
         board ← get result "board";
         match board with
         | Arr rows =>
             if (length rows =? 0)%nat then Return None
             else
               size ← get result "board_size";
               Return (Some {| board := rows;
                               board_size := if truthy size then size
                                             else Num (number_of_length rows) |})
         | _ => Return None
         end)
    (fun err => Return None).



End Client.

End Api.

(** ** The interfaces of [lib/api] *)

Module Game.
Record t := mk {
  id : Z;
  board_size : Z;
  komi : float;
  handicap : Z;
  user_color : string;
  ai_color : string;
  game_over : bool;
  persona : string;
  created_at : string
}.
End Game.

Module Move.
Record t := mk {
  id : Z;
  color : string;
  coordinate : string;
  move_number : Z
}.
End Move.

Module BoardState.
Record t := mk {
  board_size : Z;
  komi : float;
  user_color : string;
  ai_color : string;
  game_over : bool;
  board : list (list string);
  moves : list Move.t
}.
End BoardState.

Inductive Role : Type := user | assistant.

Module ChatMsg.
Record t := mk {
  id : Z;
  role : Role;
  content : string;
  created_at : string
}.
End ChatMsg.

Module KataGoBoardState.
Record t := mk {
  board : list (list string);
  board_size : Z
}.
End KataGoBoardState.

(** ** Board renderer ([GoBoard]) *)

Module GoBoard.

(** [getCoordinate(row, col)] for a board of size [board_size]; the click
    and hover handlers call it with [0 <= row, col < board_size] only. *)
Definition getCoordinate (board_size row col : Z) : string :=
  let letter := JS.fromCharCode (65 + col) in
  let letter := if 8 <=? col then JS.fromCharCode (66 + col) else letter in
  let number := board_size - row in
  String letter (JS.toString number).

(** [parseCoordinate(coord)]; [None] is the [null] result. *)
Definition parseCoordinate (board_size : Z) (coord : string) : option (Z * Z) :=
  match coord with
  | EmptyString => None
  | String c0 rest =>
      if (String.length coord <? 2)%nat then None
      else
        match JS.parseInt rest (Some 10) with
        | None => None
        | Some number =>
            let charCode := JS.upper_code c0 in
            let col := if 73 <? charCode then charCode - 66 else charCode - 65 in
            let row := board_size - number in
            if (row <? 0) || (board_size <=? row) || (col <? 0) || (board_size <=? col)
            then None
            else Some (row, col)
        end
  end.

(** [handleCellClick(row, col)]: the coordinate handed to [onMoveSubmit],
    or [None] when the click is dropped because a move is in flight. *)
Definition handleCellClick (isSubmitting : bool) (board_size row col : Z) : option string :=
  if isSubmitting then None
  else Some (getCoordinate board_size row col).

(** [arr[i] = v]: in place within the array, extending it with holes
    (which read as a falsy [undefined]) beyond its end. *)
Definition store (arr : list bool) (i : nat) (v : bool) : list bool :=
  if (i <? length arr)%nat then <[i := v]> arr
  else arr ++ replicate (i - length arr) false ++ [v].

(** [stars[r][c] = true]; reading a row that does not exist gives
    [undefined], and the store into it throws. *)
Definition set_star (r c : nat) (stars : list (list bool)) : completion (list (list bool)) :=
  match stars !! r with
  | Some row => Return (<[r := store row c true]> stars)
  | None => Throw TypeError
  end.

(** [xs.forEach(x => body)] over a threaded array. *)
Fixpoint forEach {A S} (xs : list A) (body : A -> S -> completion S) (s : S)
  : completion S :=
  match xs with
  | [] => Return s
  | x :: rest => s' ← body x s; forEach rest body s'
  end.

Definition renderStarPoints (size : Z) : completion (list (list bool)) :=
  if (size <? 0) || (4294967295 <? size) then Throw RangeError
  else
    let n := Z.to_nat size in
    let stars := replicate n (replicate n false) in
    if size =? 19 then
      forEach [3; 9; 15]%nat (fun r => forEach [3; 9; 15]%nat (fun c => set_star r c)) stars
    else if size =? 13 then
      forEach [3; 9]%nat (fun r => forEach [3; 9]%nat (fun c => set_star r c)) stars
    else if size =? 9 then
      let positions := [2; 6]%nat in
      stars ← forEach positions (fun r => forEach positions (fun c => set_star r c)) stars;
      set_star 4 4 stars
    else Return stars.

(** [starPoints[r][c]] as a condition. *)
Definition is_star (starPoints : list (list bool)) (r c : nat) : bool :=
  match starPoints !! r with
  | Some row => default false (row !! c)
  | None => false
  end.

(** The intersections that get a star-point circle: the double loop over
    [r] and [c] below [board_size] that fills [starPointElements]. *)
Definition starPointElements (board_size : Z) (starPoints : list (list bool))
  : list (nat * nat) :=
  let n := Z.to_nat board_size in
  flat_map (fun r =>
    flat_map (fun c => if is_star starPoints r c then [(r, c)] else []) (seq 0 n))
    (seq 0 n).

(** The component renders a placeholder until a board state arrives. *)
Definition showsLoading (boardState : option BoardState.t) : bool :=
  match boardState with
  | None => true
  | Some _ => false
  end.

(** [lastMovePos]: where the last-move ring is drawn. *)
Definition lastMovePos (board_size : Z) (lastMoveCoord : option string) : option (Z * Z) :=
  match lastMoveCoord with
  | Some coord => if truthy coord then parseCoordinate board_size coord else None
  | None => None
  end.

(** [handleCellHover(row, col)]: the new [hoverCoord] and the value handed
    to [onHoverChange]. *)
Definition handleCellHover (board_size row col : Z) : option string * option string :=
  let coord := getCoordinate board_size row col in
  (Some coord, Some coord).

(** [handleCellLeave()] *)
Definition handleCellLeave : option string * option string := (None, None).



(** The column labels: the loop [for (i = 0; i < board_size; i++)]. *)
Definition colLabels (board_size : Z) : list string :=
  map (fun k : nat =>
         let i := Z.of_nat k in
         let letter := JS.fromCharCode (65 + i) in
         let letter := if 8 <=? i then JS.fromCharCode (66 + i) else letter in
         String letter EmptyString)
      (seq 0 (Z.to_nat board_size)).

(** The values of [i] in [for (i = n; i >= 1; i--)]. *)
Fixpoint count_down (n : nat) : list Z :=
  match n with
  | O => []
  | S k => Z.of_nat (S k) :: count_down k
  end.

Definition rowLabels (board_size : Z) : list string :=
  map JS.toString (count_down (Z.to_nat board_size)).

(** *** Pixel layout *)

Definition cellSize : Z := 40.
Definition padding : Z := 30.
Definition labelSize : Z := 24.
Definition boardPixelSize (board_size : Z) : Z := (board_size - 1) * cellSize.

Record line := { x1 : Z; y1 : Z; x2 : Z; y2 : Z }.
Record box := { left : Z; top : Z; width : Z; height : Z }.

(** Grid lines and star circles, in the coordinates of the [svg]. *)
Definition verticalLine (board_size i : Z) : line :=
  {| x1 := padding + i * cellSize; y1 := padding;
     x2 := padding + i * cellSize; y2 := padding + boardPixelSize board_size |}.

Definition horizontalLine (board_size i : Z) : line :=
  {| x1 := padding; y1 := padding + i * cellSize;
     x2 := padding + boardPixelSize board_size; y2 := padding + i * cellSize |}.

Definition starCircle (r c : Z) : Z * Z := (padding + c * cellSize, padding + r * cellSize).

(** The [svg] sits at (labelSize, 0) in the component. *)
Definition svgBox (board_size : Z) : box :=
  {| left := labelSize; top := 0;
     width := padding + boardPixelSize board_size + padding;
     height := padding + boardPixelSize board_size + padding |}.

(** The clickable overlay that holds the stones. *)
Definition overlayBox (board_size : Z) : box :=
  {| left := labelSize + padding; top := padding;
     width := boardPixelSize board_size; height := boardPixelSize board_size |}.

(** The cell of a stone, in the coordinates of the overlay. *)
Definition stoneBox (rowIndex colIndex : Z) : box :=
  {| left := colIndex * cellSize - 16; top := rowIndex * cellSize - 16;
     width := 32; height := 32 |}.

(** Label boxes, in the coordinates of the component. *)
Definition colLabelTop (i : Z) : box :=
  {| left := labelSize + padding + i * cellSize - labelSize / 2; top := 0;
     width := labelSize; height := labelSize |}.

Definition colLabelBottom (board_size i : Z) : box :=
  {| left := labelSize + padding + i * cellSize - labelSize / 2;
     top := padding + boardPixelSize board_size;
     width := labelSize; height := labelSize |}.

Definition rowLabelLeft (i : Z) : box :=
  {| left := labelSize / 2; top := padding + i * cellSize - labelSize / 2;
     width := labelSize; height := labelSize |}.

Definition rowLabelRight (board_size i : Z) : box :=
  {| left := labelSize + padding + boardPixelSize board_size;
     top := padding + i * cellSize - labelSize / 2;
     width := labelSize; height := labelSize |}.

Definition totalWidth (board_size : Z) : Z :=
  labelSize + (padding + boardPixelSize board_size + padding).

Definition totalHeight (board_size : Z) : Z :=
  labelSize + (padding + boardPixelSize board_size + padding).

End GoBoard.

(** ** Page controller ([app/page.tsx]) *)

Module Page.

Record PendingMove := {
  row : option Z;               (* [None] is NaN *)
  col : Z;
  color : string
}.

(** The component's state hooks. *)
Record State := {
  game : option Game.t;
  boardState : option BoardState.t;
  messages : list ChatMsg.t;
  isSubmitting : bool;
  isThinking : bool;
  previewCoord : option string;
  error : option string;
  pendingMove : option PendingMove;
  lastMoveCoord : option string
}.

Definition setGame (v : option Game.t) (st : State) : State :=
  {| game := v; boardState := boardState st; messages := messages st;
     isSubmitting := isSubmitting st; isThinking := isThinking st;
     previewCoord := previewCoord st; error := error st;
     pendingMove := pendingMove st; lastMoveCoord := lastMoveCoord st |}.

(** [setBoardState(prev => f(prev))]; [setBoardState(b)] is the constant [f]. *)
Definition setBoardState (f : option BoardState.t -> option BoardState.t) (st : State) : State :=
  {| game := game st; boardState := f (boardState st); messages := messages st;
     isSubmitting := isSubmitting st; isThinking := isThinking st;
     previewCoord := previewCoord st; error := error st;
     pendingMove := pendingMove st; lastMoveCoord := lastMoveCoord st |}.

(** [setMessages(prev => f(prev))]; [setMessages(l)] is the constant [f]. *)
Definition setMessages (f : list ChatMsg.t -> list ChatMsg.t) (st : State) : State :=
  {| game := game st; boardState := boardState st; messages := f (messages st);
     isSubmitting := isSubmitting st; isThinking := isThinking st;
     previewCoord := previewCoord st; error := error st;
     pendingMove := pendingMove st; lastMoveCoord := lastMoveCoord st |}.

Definition setIsSubmitting (v : bool) (st : State) : State :=
  {| game := game st; boardState := boardState st; messages := messages st;
     isSubmitting := v; isThinking := isThinking st;
     previewCoord := previewCoord st; error := error st;
     pendingMove := pendingMove st; lastMoveCoord := lastMoveCoord st |}.

Definition setIsThinking (v : bool) (st : State) : State :=
  {| game := game st; boardState := boardState st; messages := messages st;
     isSubmitting := isSubmitting st; isThinking := v;
     previewCoord := previewCoord st; error := error st;
     pendingMove := pendingMove st; lastMoveCoord := lastMoveCoord st |}.

Definition setPreviewCoord (v : option string) (st : State) : State :=
  {| game := game st; boardState := boardState st; messages := messages st;
     isSubmitting := isSubmitting st; isThinking := isThinking st;
     previewCoord := v; error := error st;
     pendingMove := pendingMove st; lastMoveCoord := lastMoveCoord st |}.

Definition setError (v : option string) (st : State) : State :=
  {| game := game st; boardState := boardState st; messages := messages st;
     isSubmitting := isSubmitting st; isThinking := isThinking st;
     previewCoord := previewCoord st; error := v;
     pendingMove := pendingMove st; lastMoveCoord := lastMoveCoord st |}.

Definition setPendingMove (v : option PendingMove) (st : State) : State :=
  {| game := game st; boardState := boardState st; messages := messages st;
     isSubmitting := isSubmitting st; isThinking := isThinking st;
     previewCoord := previewCoord st; error := error st;
     pendingMove := v; lastMoveCoord := lastMoveCoord st |}.

Definition setLastMoveCoord (v : option string) (st : State) : State :=
  {| game := game st; boardState := boardState st; messages := messages st;
     isSubmitting := isSubmitting st; isThinking := isThinking st;
     previewCoord := previewCoord st; error := error st;
     pendingMove := pendingMove st; lastMoveCoord := v |}.

(** A handler run: the state it leaves and how its promise settles. *)
Definition action (A : Type) : Type := State -> State * completion A.

#[global] Instance action_ret : MRet action := fun A a st => (st, Return a).
#[global] Instance action_bind : MBind action := fun A B k m st =>
  match m st with
  | (st', Return a) => k a st'
  | (st', Throw e) => (st', Throw e)
  end.

(** A state setter call. *)
Definition set (f : State -> State) : action unit := fun st => (f st, Return tt).

(** [await p] for a promise that settles as [p]. *)
Definition await {A} (p : completion A) : action A := fun st => (st, p).

(** [try { body } catch (err) { handler } finally { finalizer }] *)
Definition try_catch_finally {A} (body : action A) (handler : exn -> action A)
  (finalizer : action unit) : action A := fun st =>
  let '(st1, r1) := body st in
  let '(st2, r2) :=
    match r1 with
    | Return a => (st1, Return a)
    | Throw e => handler e st1
    end in
  let '(st3, r3) := finalizer st2 in
  (st3, match r3 with Return _ => r2 | Throw e => Throw e end).

(** [parseCoordinate(coord, boardSize)]: the row is NaN ([None]) when the
    number does not parse; indexing the empty string gives [undefined],
    whose [toUpperCase] call throws. *)
Definition parseCoordinate (coord : string) (boardSize : Z)
  : completion (option Z * Z) :=
  match coord with
  | EmptyString => Throw TypeError
  | String c0 rest =>
      let number := JS.parseInt rest None in
      let col := JS.upper_code c0 - 65 in
      let col := if 8 <=? col then col - 1 else col in
      let row := option_map (fun n => boardSize - n) number in
      Return (row, col)
  end.

Record Config := {
  boardSize : Z;
  cfg_komi : float;
  handicap : Z;
  userColor : string;
  persona : string
}.

Definition llmShouldMoveFirst (config : Config) : bool :=
  ((handicap config =? 0) && String.eqb (userColor config) "W") ||
  ((0 <? handicap config) && String.eqb (userColor config) "B").

(** The reply of [getFirstMove]. *)
Record FirstMove := {
  move : option string;
  fm_color : option string;
  message : option string;
  board_state : option BoardState.t
}.

(** The reply of [submitMove]; the engine's move is absent after a pass
    or at the end of the game. *)
Record SubmitResult := {
  sr_game : Game.t;
  user_move : string;
  ai_move : option string;
  score_delta : float;
  bot_response : string
}.

(** What the outside world answers during [startGame]: the settled
    promises of the API calls, at their TypeScript types, and the clock
    readings, in program order. *)
Record StartEnv := {
  se_createGame : completion Game.t;
  se_now_waiting : Z;
  se_date_waiting : string;
  se_getFirstMove : completion FirstMove;
  se_now_first : Z;
  se_date_first : string;
  se_getGameBoard : completion BoardState.t;
  se_getChatMessages : completion (list ChatMsg.t)
}.

Definition startGame (env : StartEnv) (config : Config) : action unit :=
  set (setIsSubmitting true);;
  set (setError None);;
  try_catch_finally
    (newGame ← await (se_createGame env);
     set (setGame (Some newGame));;
     if llmShouldMoveFirst config then
       set (setMessages (fun _ =>
         [ChatMsg.mk (se_now_waiting env) assistant "..." (se_date_waiting env)]));;
       set (setIsThinking true);;
       try_catch_finally
         (firstMoveResult ← await (se_getFirstMove env);
          match move firstMoveResult with
          | Some (String c r as mv) =>
              set (setMessages (fun _ =>
                [ChatMsg.mk (se_now_first env) assistant
                   (or_else (message firstMoveResult) ("I play " ++ mv))
                   (se_date_first env)]));;
              match board_state firstMoveResult with
              | Some b => set (setBoardState (fun _ => Some b))
              | None => mret tt
              end;;
              set (setLastMoveCoord (Some mv))
          | _ => set (setMessages (fun _ => []))
          end)
         (fun err =>
            set (setError (Some "Failed to get first move from KataGo"));;
            set (setMessages (fun _ => [])))
         (set (setIsThinking false))
     else
       board ← await (se_getGameBoard env);
       set (setBoardState (fun _ => Some board));;
       msgs ← await (se_getChatMessages env);
       set (setMessages (fun _ => msgs)))
    (fun err =>
       set (setError (Some "Failed to start game. Make sure the backend server is running.")))
    (set (setIsSubmitting false)).

(** What the outside world answers during [handleMoveSubmit]: the settled
    promises of the API calls, at their TypeScript types, and the clock
    readings, in program order.  Console logging is left out. *)
Record MoveEnv := {
  me_now_submit : Z;                   (* Date.now() read into userMsgId *)
  me_date_submit : string;
  me_submitMove : completion SubmitResult;
  me_date_user : string;
  me_now_reply : Z;                    (* Date.now() for the reply's id *)
  me_date_reply : string;
  me_getKataGoBoardState : completion (option KataGoBoardState.t);
  me_getGameBoard : completion BoardState.t
}.

(** The updater [prev => newState] that installs the engine's board. *)
Definition engineBoardUpdate (game : Game.t) (kataGoBoard : KataGoBoardState.t)
  (prev : option BoardState.t) : option BoardState.t :=
  Some {|
    BoardState.board_size := KataGoBoardState.board_size kataGoBoard;
    BoardState.komi := or_else (BoardState.komi <$> prev) (Game.komi game);
    BoardState.user_color := or_else (BoardState.user_color <$> prev) (Game.user_color game);
    BoardState.ai_color := or_else (BoardState.ai_color <$> prev) (Game.ai_color game);
    BoardState.game_over := or_else (BoardState.game_over <$> prev) (Game.game_over game);
    BoardState.board := KataGoBoardState.board kataGoBoard;
    BoardState.moves := or_else (BoardState.moves <$> prev) []
  |}.

(** [prev.filter(m => m.id !== userMsgId)] *)
Definition without (userMsgId : Z) (prev : list ChatMsg.t) : list ChatMsg.t :=
  List.filter (fun m => negb (ChatMsg.id m =? userMsgId)) prev.

Definition handleMoveSubmit (env : MoveEnv) (coordinate : string) : action unit := fun st =>
  match game st with
  | None => (st, Return tt)
  | Some game =>
      if isSubmitting st then (st, Return tt)
      else
        (set (setPreviewCoord None);;
         set (setError None);;
         '(row, col) ← await (parseCoordinate coordinate (Game.board_size game));
         set (setPendingMove
                (Some {| row := row; col := col; color := Game.user_color game |}));;
         let userMsgId := me_now_submit env in
         set (setMessages (fun prev =>
           (prev ++ [ChatMsg.mk userMsgId user ("My move: " ++ coordinate)
                       (me_date_submit env)])%list));;
         set (setIsSubmitting true);;
         set (setIsThinking true);;
         try_catch_finally
           (result ← await (me_submitMove env);
            set (setMessages (fun prev =>
              (without userMsgId prev ++
               [ChatMsg.mk userMsgId user ("My move: " ++ coordinate) (me_date_user env);
                ChatMsg.mk (me_now_reply env + 1) assistant (bot_response result)
                  (me_date_reply env)])%list));;
            (if truthy (ai_move result)
             then set (setLastMoveCoord (ai_move result))
             else set (setLastMoveCoord (Some coordinate)));;
            kataGoBoard ← await (me_getKataGoBoardState env);
            match kataGoBoard with
            | Some kb =>
                if (0 <? length (KataGoBoardState.board kb))%nat
                then set (setBoardState (engineBoardUpdate game kb))
                else
                  board ← await (me_getGameBoard env);
                  set (setBoardState (fun _ => Some board))
            | None =>
                board ← await (me_getGameBoard env);
                set (setBoardState (fun _ => Some board))
            end)
           (fun err =>
              set (setError (Some "Failed to submit move"));;
              set (setMessages (without userMsgId)))
           (set (setIsSubmitting false);;
            set (setIsThinking false);;
            set (setPendingMove None))) st
  end.

(** A click on the board while the page is in state [st]: [GoBoard] gets
    [isSubmitting] and the board size as props and calls back
    [handleMoveSubmit]. *)
Definition boardClick (env : MoveEnv) (board_size row col : Z) : action unit := fun st =>
  match GoBoard.handleCellClick (isSubmitting st) board_size row col with
  | Some coord => handleMoveSubmit env coord st
  | None => (st, Return tt)
  end.

(** [handleHoverChange(coord)] *)
Definition handleHoverChange (coord : option string) : action unit :=
  set (setPreviewCoord coord).

(** The reply of [sendChatMessage]; the handler allows for a reply without
    a bot message. *)
Record ChatResult := {
  user_message : ChatMsg.t;
  bot_message : option ChatMsg.t
}.

(** What the outside world answers during [handleChatMessage]: the settled
    promises of the API calls, at their TypeScript types, and the clock
    readings, in program order.  Console logging is left out. *)
Record ChatEnv := {
  ce_now_send : Z;                     (* Date.now() read into userMsgId *)
  ce_date_send : string;
  ce_sendChatMessage : completion ChatResult;
  ce_date_user : string;
  ce_now_reply : Z;                    (* Date.now() for the reply's id *)
  ce_date_reply : string;
  ce_getKataGoBoardState : completion (option KataGoBoardState.t);
  ce_getGameBoard : completion BoardState.t
}.

(** [typeof result.bot_message?.content === 'string' ? result.bot_message.content
     : String(result.bot_message || "...")] *)
Definition botContent (result : ChatResult) : string :=
  match bot_message result with
  | Some m => ChatMsg.content m
  | None => "..."
  end.

Definition handleChatMessage (env : ChatEnv) (content : string) : action unit := fun st =>
  match game st with
  | None => (st, Return tt)
  | Some game =>
      if isSubmitting st || isThinking st then (st, Return tt)
      else
        (set (setError None);;
         let userMsgId := ce_now_send env in
         set (setMessages (fun prev =>
           (prev ++ [ChatMsg.mk userMsgId user content (ce_date_send env)])%list));;
         set (setIsThinking true);;
         try_catch_finally
           (result ← await (ce_sendChatMessage env);
            let botContent := botContent result in
            set (setMessages (fun prev =>
              (without userMsgId prev ++
               [ChatMsg.mk userMsgId user content (ce_date_user env);
                ChatMsg.mk (ce_now_reply env + 1) assistant botContent
                  (ce_date_reply env)])%list));;
            kataGoBoard ← await (ce_getKataGoBoardState env);
            match kataGoBoard with
            | Some kb =>
                if (0 <? length (KataGoBoardState.board kb))%nat
                then set (setBoardState (engineBoardUpdate game kb))
                else
                  board ← await (ce_getGameBoard env);
                  set (setBoardState (fun _ => Some board))
            | None =>
                board ← await (ce_getGameBoard env);
                set (setBoardState (fun _ => Some board))
            end)
           (fun err =>
              set (setError (Some "Failed to send message"));;
              set (setMessages (without userMsgId)))
           (set (setIsThinking false))) st
  end.

(** The state of a freshly mounted page. *)
Definition initialState : State :=
  {| game := None; boardState := None; messages := []; isSubmitting := false;
     isThinking := false; previewCoord := None; error := None; pendingMove := None;
     lastMoveCoord := None |}.

(** Which screen the component returns: the setup form while there is no
    game, the board and chat afterwards. *)
Inductive Screen : Type := SetupScreen | GameScreen.

Definition screen (st : State) : Screen :=
  match game st with
  | None => SetupScreen
  | Some _ => GameScreen
  end.

(** The banner [{error && <div>...</div>}], shown on both screens. *)
Definition banner (st : State) : option string :=
  match error st with
  | Some msg => if truthy msg then Some msg else None
  | None => None
  end.

End Page.

(** ** Chat panel ([Chat]) *)

Module Chat.

(** [handleSubmit]: the new content of the input box and the message handed
    to [onSendMessage], if any. *)
Definition handleSubmit (input : string) (isSubmitting isThinking : bool)
  : string * option string :=
  if negb (truthy (JS.trim input)) || isSubmitting || isThinking then (input, None)
  else
    let messageToSend := input in
    (EmptyString, Some messageToSend).

(** [formatMessage(content)]: each line with whether a [<br />] follows it. *)
Definition formatMessage (content : string) : list (string * bool) :=
  let lines := JS.split_lines content in
  imap (fun i line => (line, (i <? length lines - 1)%nat)) lines.

(** The faint preview line [previewCoord && !isThinking]. *)
Definition preview (previewCoord : option string) (isThinking : bool) : option string :=
  match previewCoord with
  | Some coord =>
      if truthy coord && negb isThinking then Some ("My move: " ++ coord) else None
  | None => None
  end.

(** The typing indicator. *)
Definition showsTyping (isThinking : bool) : bool := isThinking.

(** The input box and the send button are disabled. *)
Definition inputDisabled (isSubmitting isThinking : bool) : bool :=
  isSubmitting || isThinking.

End Chat.

(** ** Setup form ([GameSetup]) *)

Module GameSetup.

Record GameType := {
  label : string;
  komi : float;
  handicap : Z
}.

Definition GAME_TYPES : list GameType :=
  [ {| label := "Default (Komi 6.5)"; komi := 6.5%float; handicap := 0 |};
    {| label := "No Komi"; komi := 0%float; handicap := 0 |};
    {| label := "2 Stone Handicap"; komi := 0.5%float; handicap := 2 |};
    {| label := "3 Stone Handicap"; komi := 0.5%float; handicap := 3 |};
    {| label := "4 Stone Handicap"; komi := 0.5%float; handicap := 4 |};
    {| label := "5 Stone Handicap"; komi := 0.5%float; handicap := 5 |};
    {| label := "6 Stone Handicap"; komi := 0.5%float; handicap := 6 |};
    {| label := "7 Stone Handicap"; komi := 0.5%float; handicap := 7 |};
    {| label := "8 Stone Handicap"; komi := 0.5%float; handicap := 8 |};
    {| label := "9 Stone Handicap"; komi := 0.5%float; handicap := 9 |} ].

(** The form's state hooks. *)
Record Form := {
  boardSize : Z;
  gameTypeIndex : nat;
  userColor : string;
  persona : string
}.

Definition initialForm : Form :=
  {| boardSize := 19; gameTypeIndex := 0; userColor := "B"; persona := "arrogant" |}.

(** [handleSubmit]: the configuration handed to [onStartGame]; reading a
    field of [GAME_TYPES[gameTypeIndex]] throws when the index is outside
    the table. *)
Definition handleSubmit (form : Form) : completion Page.Config :=
  match GAME_TYPES !! gameTypeIndex form with
  | Some gameType =>
      Return {| Page.boardSize := boardSize form;
                Page.cfg_komi := komi gameType;
                Page.handicap := handicap gameType;
                Page.userColor := userColor form;
                Page.persona := persona form |}
  | None => Throw TypeError
  end.

End GameSetup.
(** ** Decimal numerals *)

(** Value of a digit sequence read after a prefix worth [acc]. *)
Fixpoint uint_value (d : uint) (acc : Z) : Z :=
  match d with
  | Nil => acc
  | D0 l => uint_value l (10 * acc + 0)
  | D1 l => uint_value l (10 * acc + 1)
  | D2 l => uint_value l (10 * acc + 2)
  | D3 l => uint_value l (10 * acc + 3)
  | D4 l => uint_value l (10 * acc + 4)
  | D5 l => uint_value l (10 * acc + 5)
  | D6 l => uint_value l (10 * acc + 6)
  | D7 l => uint_value l (10 * acc + 7)
  | D8 l => uint_value l (10 * acc + 8)
  | D9 l => uint_value l (10 * acc + 9)
  end.


(** ** Vocabulary for comparing the two coordinate parsers *)

(** An intersection of the board. *)
Definition on_board (size row col : Z) : bool :=
  (0 <=? row) && (row <? size) && (0 <=? col) && (col <? size).

(** A pair as the page controller returns it lies off the board: its row
    is [NaN] or the intersection does not exist. *)
Definition off_board (size : Z) (row : option Z) (col : Z) : Prop :=
  match row with
  | Some r => on_board size r col = false
  | None => True
  end.

(** The usable column letters A-H and J-T. *)
Definition usable_letter (c : ascii) : bool :=
  let n := JS.code c in
  ((65 <=? n) && (n <=? 72)) || ((74 <=? n) && (n <=? 84)).

(** Column of a usable letter: A-H are 0-7, J-T are 8-18. *)
Definition letter_column (c : ascii) : Z :=
  let n := JS.code c in
  if n <=? 72 then n - 65 else n - 66.

(** The column letter of [coord] is I (in either case). *)
Definition letter_is_I (coord : string) : Prop :=
  match coord with
  | String c _ => JS.upper_code c = 73
  | EmptyString => False
  end.

(** The two parsers on one input: the same pair, or the renderer answers
    [null] and the page controller answers a pair off the board. *)
Definition agree_or_off_board (size : Z) (coord : string) : Prop :=
  match GoBoard.parseCoordinate size coord with
  | Some (r, c) => Page.parseCoordinate coord size = Return (Some r, c)
  | None =>
      exists row col,
        Page.parseCoordinate coord size = Return (row, col) /\ off_board size row col
  end.

(** ** Vocabulary for the move-submission properties *)

(** Some awaited call inside the [try] block of [handleMoveSubmit] rejects:
    the move submission itself, the engine status fetch, or the database
    fetch that is made when the engine offers no grid. *)
Definition awaited_call_rejects (env : Page.MoveEnv) : bool :=
  match Page.me_submitMove env with
  | Throw _ => true
  | Return _ =>
      match Page.me_getKataGoBoardState env with
      | Throw _ => true
      | Return (Some kb) =>
          if (0 <? length (KataGoBoardState.board kb))%nat then false
          else match Page.me_getGameBoard env with Throw _ => true | Return _ => false end
      | Return None =>
          match Page.me_getGameBoard env with Throw _ => true | Return _ => false end
      end
  end.

(** The engine offers no grid: null, or (were it to happen) an empty one. *)
Definition no_engine_grid (kataGoBoard : option KataGoBoardState.t) : Prop :=
  match kataGoBoard with
  | Some kb => KataGoBoardState.board kb = []
  | None => True
  end.

(** The metadata of [b] is the prior board state's, or the Game's when
    there is no prior state. *)
Definition carried_over (g : Game.t) (prev : option BoardState.t) (b : BoardState.t) : Prop :=
  match prev with
  | Some p =>
      BoardState.komi b = BoardState.komi p /\
      BoardState.user_color b = BoardState.user_color p /\
      BoardState.ai_color b = BoardState.ai_color p /\
      BoardState.game_over b = BoardState.game_over p
  | None =>
      BoardState.komi b = Game.komi g /\
      BoardState.user_color b = Game.user_color g /\
      BoardState.ai_color b = Game.ai_color g /\
      BoardState.game_over b = Game.game_over g
  end.

(** Sample data: a 19x19 game, a board state, the replies of a turn. *)
Definition sample_game : Game.t :=
  Game.mk 1 19 6.5%float 0 "B" "W" false "arrogant" "2025-01-01T00:00:00.000Z".

Definition empty_row : list string := replicate 19%nat ".".

Definition sample_board (komi : float) : BoardState.t :=
  BoardState.mk 19 komi "B" "W" false (replicate 19%nat empty_row) [].

Definition sample_state (prev : option BoardState.t) : Page.State :=
  {| Page.game := Some sample_game; Page.boardState := prev; Page.messages := [];
     Page.isSubmitting := false; Page.isThinking := false; Page.previewCoord := Some "Q16";
     Page.error := None; Page.pendingMove := None; Page.lastMoveCoord := None |}.

Definition sample_reply : Page.SubmitResult :=
  {| Page.sr_game := sample_game; Page.user_move := "Q16"; Page.ai_move := Some "D4";
     Page.score_delta := 0.5%float; Page.bot_response := "Too slow." |}.

Definition engine_board : KataGoBoardState.t :=
  KataGoBoardState.mk
    (<[3%nat := <[15%nat := "B"]> empty_row]> (<[15%nat := <[3%nat := "W"]> empty_row]>
       (replicate 19%nat empty_row)))
    19.

Definition sample_env (submit : completion Page.SubmitResult)
  (engine : option KataGoBoardState.t) (db : completion BoardState.t) : Page.MoveEnv :=
  {| Page.me_now_submit := 1000; Page.me_date_submit := "2025-01-01T00:00:01.000Z";
     Page.me_submitMove := submit;
     Page.me_date_user := "2025-01-01T00:00:03.000Z";
     Page.me_now_reply := 3000; Page.me_date_reply := "2025-01-01T00:00:03.000Z";
     Page.me_getKataGoBoardState := Return engine;
     Page.me_getGameBoard := db |}.

(** ** Vocabulary for the API client *)


(** Sample data for the API client: an error page and engine replies. *)
Definition server_error : Api.response :=
  {| Api.status := 500; Api.text := "Internal Server Error";
     Api.json_body := Some (Obj [("detail", Str "Internal Server Error")]) |}.

Definition engine_reply (result : value) : Api.response :=
  {| Api.status := 200; Api.text := ""; Api.json_body := Some (Obj [("result", result)]) |}.

Definition busy_state : Page.State :=
  {| Page.game := Some sample_game; Page.boardState := Some (sample_board 6.5%float);
     Page.messages := [ChatMsg.mk 1000 user "My move: Q16" "2025-01-01T00:00:01.000Z"];
     Page.isSubmitting := true; Page.isThinking := true; Page.previewCoord := None;
     Page.error := None;
     Page.pendingMove := Some {| Page.row := Some 3; Page.col := 15; Page.color := "B" |};
     Page.lastMoveCoord := None |}.

Definition sample_config (handicap : Z) (userColor : string) : Page.Config :=
  {| Page.boardSize := 19; Page.cfg_komi := 0.5%float; Page.handicap := handicap;
     Page.userColor := userColor; Page.persona := "arrogant" |}.

(** Sample answers for [startGame] and [handleChatMessage]. *)
Definition first_move_reply (move : option string) : Page.FirstMove :=
  {| Page.move := move; Page.fm_color := Some "B"; Page.message := Some "Your turn.";
     Page.board_state := Some (sample_board 0.5%float) |}.

Definition start_env (create : completion Game.t) (first : completion Page.FirstMove)
  (board : completion BoardState.t) (chat : completion (list ChatMsg.t)) : Page.StartEnv :=
  {| Page.se_createGame := create; Page.se_now_waiting := 500;
     Page.se_date_waiting := "2025-01-01T00:00:00.500Z";
     Page.se_getFirstMove := first; Page.se_now_first := 900;
     Page.se_date_first := "2025-01-01T00:00:00.900Z";
     Page.se_getGameBoard := board; Page.se_getChatMessages := chat |}.

Definition chat_reply (bot : option ChatMsg.t) : Page.ChatResult :=
  {| Page.user_message := ChatMsg.mk 7 user "hello" "2025-01-01T00:00:02.000Z";
     Page.bot_message := bot |}.

Definition chat_env (send : completion Page.ChatResult)
  (engine : option KataGoBoardState.t) (db : completion BoardState.t) : Page.ChatEnv :=
  {| Page.ce_now_send := 2000; Page.ce_date_send := "2025-01-01T00:00:02.000Z";
     Page.ce_sendChatMessage := send;
     Page.ce_date_user := "2025-01-01T00:00:04.000Z";
     Page.ce_now_reply := 4000; Page.ce_date_reply := "2025-01-01T00:00:04.000Z";
     Page.ce_getKataGoBoardState := Return engine;
     Page.ce_getGameBoard := db |}.

Definition pass_reply : Page.SubmitResult :=
  {| Page.sr_game := sample_game; Page.user_move := "Q16"; Page.ai_move := None;
     Page.score_delta := 0%float; Page.bot_response := "I pass." |}.

(** Some awaited call inside the [try] block of [handleChatMessage]
    rejects. *)
Definition chat_call_rejects (env : Page.ChatEnv) : bool :=
  match Page.ce_sendChatMessage env with
  | Throw _ => true
  | Return _ =>
      match Page.ce_getKataGoBoardState env with
      | Throw _ => true
      | Return (Some kb) =>
          if (0 <? length (KataGoBoardState.board kb))%nat then false
          else match Page.ce_getGameBoard env with Throw _ => true | Return _ => false end
      | Return None =>
          match Page.ce_getGameBoard env with Throw _ => true | Return _ => false end
      end
  end.

(** An idle page with one earlier chat entry. *)
Definition idle_state : Page.State :=
  {| Page.game := Some sample_game; Page.boardState := Some (sample_board 6.5%float);
     Page.messages := [ChatMsg.mk 1000 user "My move: Q16" "2025-01-01T00:00:01.000Z"];
     Page.isSubmitting := false; Page.isThinking := false; Page.previewCoord := None;
     Page.error := None; Page.pendingMove := None; Page.lastMoveCoord := Some "D4" |}.

(** ** Vocabulary for the chat panel *)

(** Every character of [s] is white space (so is the empty string). *)
Fixpoint all_space (s : string) : bool :=
  match s with
  | String c r => JS.is_space c && all_space r
  | EmptyString => true
  end.

(** The line feed, as a character and as a separator. *)
Definition LF : ascii := JS.fromCharCode 10.

Fixpoint count_LF (s : string) : nat :=
  match s with
  | String c r => (if JS.code c =? 10 then 1 else 0) + count_LF r
  | EmptyString => 0
  end.

(** An engine that has been set up for a 9x9 game. *)
Definition small_engine_board : KataGoBoardState.t :=
  KataGoBoardState.mk (replicate 9%nat (replicate 9%nat ".")) 9.

(** ** Proof automation *)

(** Symbolic execution of a handler: the monad first, then the setters,
    field by field. *)
Ltac run :=
  lazy beta iota zeta delta [Page.set Page.await Page.try_catch_finally mbind
    Page.action_bind mret Page.action_ret
    Page.setGame Page.setBoardState Page.setMessages Page.setIsSubmitting
    Page.setIsThinking Page.setPreviewCoord Page.setError Page.setPendingMove
    Page.setLastMoveCoord
    Page.game Page.boardState Page.messages Page.isSubmitting Page.isThinking
    Page.previewCoord Page.error Page.pendingMove Page.lastMoveCoord
    Page.parseCoordinate].

(** A computed star array is square. *)
Ltac square_array :=
  split; [reflexivity | repeat (constructor; [reflexivity |]); constructor].

(** Two explicit lists of intersections have the same members. *)
Ltac same_points :=
  let H := fresh in
  split; intros H; cbn [In] in *;
  repeat match type of H with _ \/ _ => destruct H as [H | H] end;
  try contradiction; subst; cbn [In]; tauto.


(** * Properties *)

(** ** Decimal strings: [parseInt] inverts [String(n)] *)

Section DecimalRoundTrip.

Lemma digits_string_of_uint (d : uint) (acc : option Z) :
  JS.digits 10 (NilEmpty.string_of_uint d) acc =
  match d with Nil => acc | _ => Some (uint_value d (default 0 acc)) end.
Proof.
  revert acc.
  induction d as [|d IH|d IH|d IH|d IH|d IH|d IH|d IH|d IH|d IH|d IH];
    intros acc; [reflexivity | ..];
    cbn [NilEmpty.string_of_uint JS.digits];
    change (JS.digit 10 _) with (Some 0) || change (JS.digit 10 _) with (Some 1)
    || change (JS.digit 10 _) with (Some 2) || change (JS.digit 10 _) with (Some 3)
    || change (JS.digit 10 _) with (Some 4) || change (JS.digit 10 _) with (Some 5)
    || change (JS.digit 10 _) with (Some 6) || change (JS.digit 10 _) with (Some 7)
    || change (JS.digit 10 _) with (Some 8) || change (JS.digit 10 _) with (Some 9);
    cbv iota; rewrite IH; destruct d; reflexivity.
Qed.

Lemma uint_value_pos (d : uint) (acc : positive) :
  uint_value d (Z.pos acc) = Z.pos (Pos.of_uint_acc d acc).
Proof.
  revert acc.
  induction d as [|d IH|d IH|d IH|d IH|d IH|d IH|d IH|d IH|d IH|d IH];
    intros acc; cbn [uint_value Pos.of_uint_acc]; [reflexivity | ..];
    rewrite <- IH; f_equal; lia.
Qed.

Lemma uint_value_zero (d : uint) : uint_value d 0 = Z.of_N (Pos.of_uint d).
Proof.
  induction d as [|d IH|d IH|d IH|d IH|d IH|d IH|d IH|d IH|d IH|d IH];
    cbn [uint_value Pos.of_uint]; [reflexivity | exact IH | ..];
    cbn [Z.of_N]; rewrite <- uint_value_pos; reflexivity.
Qed.

Lemma to_uint_not_nil (p : positive) : Pos.to_uint p <> Nil.
Proof.
  intros E. pose proof (DecimalPos.Unsigned.of_to p) as H.
  rewrite E in H. discriminate H.
Qed.

Lemma digits_to_uint (p : positive) :
  JS.digits 10 (NilEmpty.string_of_uint (Pos.to_uint p)) None = Some (Z.pos p).
Proof.
  rewrite digits_string_of_uint.
  pose proof (to_uint_not_nil p) as Hn.
  pose proof (DecimalPos.Unsigned.of_to p) as Hp.
  destruct (Pos.to_uint p) eqn:E; [congruence | ..];
    cbn [default]; rewrite uint_value_zero, Hp; reflexivity.
Qed.

(** A decimal numeral starts with a digit: nothing to trim, no sign and no
    hexadecimal prefix. *)
Lemma string_of_uint_head (d : uint) :
  d <> Nil ->
  exists c r, NilEmpty.string_of_uint d = String c r /\
    JS.is_space c = false /\ (JS.code c =? 45) = false /\ (JS.code c =? 43) = false /\
    JS.hex_prefix (String c r) = false.
Proof.
  intros Hd.
  destruct d as [|d|d|d|d|d|d|d|d|d|d]; [congruence | ..];
    cbn [NilEmpty.string_of_uint]; eexists; eexists; (split; [reflexivity |]);
    (repeat split; try reflexivity);
    destruct d; reflexivity.
Qed.

Lemma parseInt_numeral (d : uint) (radix : option Z) :
  d <> Nil -> radix = None \/ radix = Some 10 ->
  JS.parseInt (NilEmpty.string_of_uint d) radix =
  JS.digits 10 (NilEmpty.string_of_uint d) None /\
  JS.parseInt (String "-" (NilEmpty.string_of_uint d)) radix =
  option_map (Z.mul (-1)) (JS.digits 10 (NilEmpty.string_of_uint d) None).
Proof.
  intros Hd Hr.
  destruct (string_of_uint_head d Hd) as (c & r & E & Hs & Hm & Hp & Hx).
  rewrite E in *. unfold JS.parseInt, JS.sign_split. cbn [JS.trim_start].
  change (JS.is_space "-") with false. cbv iota.
  change (JS.code "-" =? 45) with true. cbv iota.
  rewrite Hs, Hm, Hp, Hx.
  assert (Hone : forall o : option Z, option_map (Z.mul 1) o = o).
  { intros [z|]; cbn [option_map]; [f_equal; lia | reflexivity]. }
  destruct Hr as [-> | ->]; cbn -[JS.digits option_map Z.mul];
    rewrite Hone; split; reflexivity.
Qed.

(** [parseInt(String(n))] and [parseInt(String(n), 10)] are both [n]. *)
Lemma parseInt_toString (n : Z) (radix : option Z) :
  radix = None \/ radix = Some 10 ->
  JS.parseInt (JS.toString n) radix = Some n.
Proof.
  intros Hr. unfold JS.toString.
  destruct n as [|p|p]; cbn [Z.to_int NilZero.string_of_int].
  - destruct Hr as [-> | ->]; reflexivity.
  - pose proof (to_uint_not_nil p) as Hn.
    destruct (parseInt_numeral _ radix Hn Hr) as [H _].
    rewrite digits_to_uint in H.
    destruct (Pos.to_uint p) eqn:E; [congruence | ..]; exact H.
  - pose proof (to_uint_not_nil p) as Hn.
    destruct (parseInt_numeral _ radix Hn Hr) as [_ H].
    rewrite digits_to_uint in H.
    destruct (Pos.to_uint p) eqn:E; [congruence | ..]; exact H.
Qed.

End DecimalRoundTrip.

(** ** Coordinates: formatting and the two parsers *)

Section Coordinates.

Lemma code_fromCharCode (n : Z) : 0 <= n < 256 -> JS.code (JS.fromCharCode n) = n.
Proof.
  intros Hn. unfold JS.code, JS.fromCharCode.
  rewrite N_ascii_embedding by lia. lia.
Qed.

Lemma upper_code_capital (c : ascii) :
  65 <= JS.code c <= 90 -> JS.upper_code c = JS.code c.
Proof.
  intros Hc. unfold JS.upper_code. cbv zeta.
  repeat match goal with
  | |- context [?a <=? ?b] => destruct (Z.leb_spec a b); try lia
  | |- context [?a =? ?b] => destruct (Z.eqb_spec a b); try lia
  end; reflexivity.
Qed.

Lemma toString_not_empty (n : Z) : exists c r, JS.toString n = String c r.
Proof.
  unfold JS.toString.
  destruct n as [|p|p]; cbn [Z.to_int NilZero.string_of_int].
  - eexists; eexists; reflexivity.
  - destruct (string_of_uint_head _ (to_uint_not_nil p)) as (c & r & E & _).
    destruct (Pos.to_uint p); [discriminate E | ..]; eauto.
  - eexists; eexists; reflexivity.
Qed.

(** The source's range test is the complement of [on_board]. *)
Lemma range_test (size row col : Z) :
  (row <? 0) || (size <=? row) || (col <? 0) || (size <=? col) =
  negb (on_board size row col).
Proof.
  unfold on_board.
  destruct (Z.ltb_spec row 0), (Z.leb_spec size row), (Z.ltb_spec col 0),
    (Z.leb_spec size col), (Z.leb_spec 0 row), (Z.ltb_spec row size),
    (Z.leb_spec 0 col), (Z.ltb_spec col size); cbn; try reflexivity; lia.
Qed.

(** The renderer's parser on a letter followed by a decimal number. *)
Lemma renderer_parse_letter_number (size : Z) (c : ascii) (n : Z) :
  GoBoard.parseCoordinate size (String c (JS.toString n)) =
  let col := if 73 <? JS.upper_code c then JS.upper_code c - 66 else JS.upper_code c - 65 in
  if on_board size (size - n) col then Some (size - n, col) else None.
Proof.
  unfold GoBoard.parseCoordinate.
  destruct (toString_not_empty n) as (d & r & E).
  rewrite parseInt_toString by (right; reflexivity).
  rewrite E. cbn [String.length Nat.ltb Nat.leb]. cbv iota zeta.
  rewrite range_test. destruct (on_board _ _ _); reflexivity.
Qed.

(** The page controller's parser on a letter followed by a decimal number. *)
Lemma page_parse_letter_number (size : Z) (c : ascii) (n : Z) :
  Page.parseCoordinate (String c (JS.toString n)) size =
  Return (Some (size - n),
          if 8 <=? JS.upper_code c - 65 then JS.upper_code c - 65 - 1
          else JS.upper_code c - 65).
Proof.
  unfold Page.parseCoordinate.
  rewrite parseInt_toString by (left; reflexivity). reflexivity.
Qed.

(** Formatting then parsing gives the intersection back, on every board
    whose column letters stay within the capitals (up to 25 lines). *)
Lemma round_trip_upto_25 (size row col : Z) :
  size <= 25 -> 0 <= row < size -> 0 <= col < size ->
  GoBoard.parseCoordinate size (GoBoard.getCoordinate size row col) = Some (row, col).
Proof.
  intros Hs Hr Hc. unfold GoBoard.getCoordinate. cbv zeta.
  rewrite renderer_parse_letter_number. cbv zeta.
  destruct (Z.leb_spec 8 col) as [H8 | H8].
  - rewrite upper_code_capital; rewrite code_fromCharCode; try lia.
    destruct (Z.ltb_spec 73 (66 + col)); [| lia].
    replace (size - (size - row)) with row by lia.
    replace (66 + col - 66) with col by lia.
    unfold on_board.
    destruct (Z.leb_spec 0 row), (Z.ltb_spec row size), (Z.leb_spec 0 col),
      (Z.ltb_spec col size); try lia. reflexivity.
  - rewrite upper_code_capital; rewrite code_fromCharCode; try lia.
    destruct (Z.ltb_spec 73 (65 + col)); [lia |].
    replace (size - (size - row)) with row by lia.
    replace (65 + col - 65) with col by lia.
    unfold on_board.
    destruct (Z.leb_spec 0 row), (Z.ltb_spec row size), (Z.leb_spec 0 col),
      (Z.ltb_spec col size); try lia. reflexivity.
Qed.

(** The formatter never emits the letter I, and column 8 is J. *)
Lemma format_skips_I (size row col : Z) :
  0 <= col < 190 ->
  (forall rest, GoBoard.getCoordinate size row col <> String "I" rest) /\
  (col = 8 -> GoBoard.getCoordinate size row col = String "J" (JS.toString (size - row))).
Proof.
  intros Hc. split.
  - intros rest E. unfold GoBoard.getCoordinate in E. cbv zeta in E.
    injection E as E _.
    apply (f_equal JS.code) in E. change (JS.code "I") with 73 in E.
    destruct (Z.leb_spec 8 col); rewrite code_fromCharCode in E; lia.
  - intros ->. reflexivity.
Qed.

End Coordinates.

(** C2. For every intersection (row, col) of a board of size 9, 13 or 19,
    the renderer's [parseCoordinate] applied to the string produced by its
    [getCoordinate] returns (row, col); the letters skip I, and column
    index 8 is formatted as J. *)
Theorem coordinate_round_trip (size row col : Z) :
  size = 9 \/ size = 13 \/ size = 19 ->
  0 <= row < size -> 0 <= col < size ->
  GoBoard.parseCoordinate size (GoBoard.getCoordinate size row col) = Some (row, col) /\
  (forall rest, GoBoard.getCoordinate size row col <> String "I" rest) /\
  (col = 8 -> exists rest, GoBoard.getCoordinate size row col = String "J" rest).
Proof.
  intros Hs Hr Hc.
  split; [apply round_trip_upto_25; lia |].
  destruct (format_skips_I size row col) as [HI HJ]; [lia |].
  split; [exact HI |]. intros E. eexists. apply HJ, E.
Qed.

Lemma coordinate_round_trip_witness :
  (19 = 9 \/ 19 = 13 \/ 19 = 19) /\ 0 <= 3 < 19 /\ 0 <= 8 < 19 /\
  GoBoard.parseCoordinate 19 (GoBoard.getCoordinate 19 3 8) = Some (3, 8) /\
  GoBoard.getCoordinate 19 3 8 = "J16".
Proof.
  assert (Hs : 19 = 9 \/ 19 = 13 \/ 19 = 19) by (right; right; reflexivity).
  assert (Hr : 0 <= 3 < 19) by lia.
  assert (Hc : 0 <= 8 < 19) by lia.
  destruct (coordinate_round_trip 19 3 8 Hs Hr Hc) as [Hparse _].
  split; [exact Hs |]. split; [exact Hr |]. split; [exact Hc |].
  split; [exact Hparse | reflexivity].
Defined.

(** C9. On a 19x19 board the coordinate Q16 is row 3, column 15, for the
    board renderer's parser and for the page controller's parser. *)
Theorem parse_Q16 :
  GoBoard.parseCoordinate 19 "Q16" = Some (3, 15) /\
  Page.parseCoordinate "Q16" 19 = Return (Some (19 - 16), 15) /\
  JS.code "Q" - 66 = 15.
Proof. repeat split; reflexivity. Qed.

(** ** The page controller's parser against the board renderer's *)

Section TwoParsers.

(** Without a hexadecimal prefix the radix argument makes no difference. *)
Lemma parseInt_radix_10 (s : string) :
  JS.has_hex_prefix s = false -> JS.parseInt s None = JS.parseInt s (Some 10).
Proof.
  unfold JS.has_hex_prefix, JS.parseInt.
  destruct (JS.sign_split (JS.trim_start s)) as [sign s2]. cbn [snd].
  intros ->. reflexivity.
Qed.

(** With one, radix 10 stops at the [x] and reads 0. *)
Lemma parseInt_10_hex (s : string) :
  JS.has_hex_prefix s = true -> JS.parseInt s (Some 10) = Some 0.
Proof.
  unfold JS.has_hex_prefix, JS.parseInt.
  destruct (JS.sign_split (JS.trim_start s)) as [sign s2]. cbn [snd].
  intros Hx. cbn -[JS.digits option_map Z.mul].
  destruct s2 as [|c0 [|c1 r]]; try discriminate Hx.
  cbn [JS.hex_prefix] in Hx.
  apply andb_prop in Hx as [H0 H1]. apply Z.eqb_eq in H0.
  assert (Hd : JS.digits 10 (String c0 (String c1 r)) None = Some 0).
  { cbn [JS.digits]. unfold JS.digit. rewrite H0. cbn.
    apply orb_prop in H1 as [H1 | H1]; apply Z.eqb_eq in H1; rewrite H1; reflexivity. }
  rewrite Hd. cbn [option_map]. f_equal. lia.
Qed.

(** Away from the letter I both parsers compute the same column. *)
Lemma same_column (u : Z) :
  u <> 73 ->
  (if 8 <=? u - 65 then u - 65 - 1 else u - 65) =
  (if 73 <? u then u - 66 else u - 65).
Proof.
  intros Hu. destruct (Z.leb_spec 8 (u - 65)), (Z.ltb_spec 73 u); lia.
Qed.

Lemma agree_without_hex (size : Z) (c0 : ascii) (rest : string) :
  JS.upper_code c0 <> 73 -> JS.has_hex_prefix rest = false ->
  agree_or_off_board size (String c0 rest).
Proof.
  intros HI Hx. unfold agree_or_off_board, GoBoard.parseCoordinate, Page.parseCoordinate.
  cbv zeta. rewrite (parseInt_radix_10 rest Hx). rewrite (same_column _ HI).
  destruct rest as [|c1 r].
  - cbn [String.length Nat.ltb Nat.leb]. cbv iota.
    change (JS.parseInt "" (Some 10)) with (@None Z).
    eexists; eexists; split; [reflexivity | exact I].
  - cbn [String.length Nat.ltb Nat.leb]. cbv iota.
    destruct (JS.parseInt (String c1 r) (Some 10)) as [n|]; cbn [option_map].
    + rewrite range_test.
      destruct (on_board size (size - n) _) eqn:Hb; cbn [negb]; cbv iota.
      * reflexivity.
      * eexists; eexists; split; [reflexivity | exact Hb].
    + eexists; eexists; split; [reflexivity | exact I].
Qed.

(** Whatever the number looks like, an answer of the renderer is also the
    page controller's (away from the letter I). *)
Lemma renderer_answer_is_page_answer (size : Z) (c0 : ascii) (rest : string) (p : Z * Z) :
  JS.upper_code c0 <> 73 ->
  GoBoard.parseCoordinate size (String c0 rest) = Some p ->
  Page.parseCoordinate (String c0 rest) size = Return (Some (fst p), snd p).
Proof.
  intros HI Hp.
  destruct (JS.has_hex_prefix rest) eqn:Hx.
  - exfalso. unfold GoBoard.parseCoordinate in Hp.
    rewrite (parseInt_10_hex rest Hx) in Hp. cbv zeta in Hp.
    destruct (String.length (String c0 rest) <? 2)%nat; [discriminate Hp |].
    replace (size - 0 <? 0) with (size <? 0) in Hp by (f_equal; lia).
    replace (size <=? size - 0) with true in Hp by (symmetry; apply Z.leb_le; lia).
    rewrite orb_true_r in Hp. discriminate Hp.
  - pose proof (agree_without_hex size c0 rest HI Hx) as H.
    unfold agree_or_off_board in H. rewrite Hp in H. destruct p. exact H.
Qed.

End TwoParsers.

(** C10, as stated, at one input: on a 19x19 board the string A0x5 has a
    usable letter, yet the renderer answers null (radix 10 reads the number
    0, row 19) while the page controller reads the hexadecimal 5 and answers
    the on-board pair (14, 0). *)
Lemma parsers_disagree_on_hex_number :
  ~ letter_is_I "A0x5" /\
  GoBoard.parseCoordinate 19 "A0x5" = None /\
  Page.parseCoordinate "A0x5" 19 = Return (Some 14, 0) /\
  on_board 19 14 0 = true /\
  ~ agree_or_off_board 19 "A0x5".
Proof.
  split; [cbn; discriminate |].
  split; [reflexivity |]. split; [reflexivity |]. split; [reflexivity |].
  unfold agree_or_off_board.
  change (GoBoard.parseCoordinate 19 "A0x5") with (@None (Z * Z)).
  intros (row & col & E & Hoff).
  change (Page.parseCoordinate "A0x5" 19) with (Return (Some 14, 0)) in E.
  injection E as <- <-. cbn in Hoff. discriminate Hoff.
Qed.

(** On the empty string the page controller throws where the renderer
    answers null. *)
Lemma parsers_disagree_on_empty (size : Z) :
  GoBoard.parseCoordinate size "" = None /\
  Page.parseCoordinate "" size = Throw TypeError /\
  ~ agree_or_off_board size "".
Proof.
  split; [reflexivity |]. split; [reflexivity |].
  unfold agree_or_off_board. cbn. intros (row & col & E & _). discriminate E.
Qed.

(** C10 (amended). On a board of any size:
    - for a usable letter (A-H, J-T) and a decimal number, both within the
      board, the two parsers return the same (row, col);
    - for the letter I followed by a decimal number the page controller
      answers column 7 and the renderer computes column 8;
    - for every non-empty string whose letter is not I and whose number has
      no hexadecimal prefix, the parsers return the same pair, or else the
      renderer returns null and the page controller a pair off the board
      (or with a NaN row). *)
Theorem parsers_agree_on_board (size : Z) :
  (forall (c : ascii) (n : Z),
     usable_letter c = true -> 1 <= n <= size -> letter_column c < size ->
     GoBoard.parseCoordinate size (String c (JS.toString n)) =
       Some (size - n, letter_column c) /\
     Page.parseCoordinate (String c (JS.toString n)) size =
       Return (Some (size - n), letter_column c)) /\
  (forall n : Z,
     Page.parseCoordinate (String "I" (JS.toString n)) size = Return (Some (size - n), 7) /\
     GoBoard.parseCoordinate size (String "I" (JS.toString n)) =
       if on_board size (size - n) 8 then Some (size - n, 8) else None) /\
  (forall (c0 : ascii) (rest : string),
     ~ letter_is_I (String c0 rest) -> JS.has_hex_prefix rest = false ->
     agree_or_off_board size (String c0 rest)).
Proof.
  split; [| split].
  - intros c n Hu Hn Hc.
    assert (Hcode : 65 <= JS.code c <= 72 \/ 74 <= JS.code c <= 84).
    { unfold usable_letter in Hu. cbv zeta in Hu.
      apply orb_prop in Hu as [H | H]; apply andb_prop in H as [H1 H2];
        apply Z.leb_le in H1, H2; lia. }
    rewrite renderer_parse_letter_number, page_parse_letter_number. cbv zeta.
    rewrite upper_code_capital by lia.
    rewrite (same_column (JS.code c)) by lia.
    unfold letter_column in *. cbv zeta in *.
    assert (Hcol : (if 73 <? JS.code c then JS.code c - 66 else JS.code c - 65) =
                   (if JS.code c <=? 72 then JS.code c - 65 else JS.code c - 66)).
    { destruct (Z.ltb_spec 73 (JS.code c)), (Z.leb_spec (JS.code c) 72); lia. }
    rewrite Hcol.
    assert (Hb : on_board size (size - n)
                   (if JS.code c <=? 72 then JS.code c - 65 else JS.code c - 66) = true).
    { unfold on_board. destruct (Z.leb_spec (JS.code c) 72);
        repeat (apply andb_true_intro; split);
        try (apply Z.leb_le; lia); try (apply Z.ltb_lt; lia). }
    rewrite Hb. split; reflexivity.
  - intros n. rewrite renderer_parse_letter_number, page_parse_letter_number.
    split; reflexivity.
  - intros c0 rest HI Hx. apply agree_without_hex; assumption.
Qed.

Lemma parsers_agree_on_board_witness :
  usable_letter "Q" = true /\ 1 <= 16 <= 19 /\ letter_column "Q" < 19 /\
  GoBoard.parseCoordinate 19 (String "Q" (JS.toString 16)) = Some (19 - 16, letter_column "Q") /\
  Page.parseCoordinate (String "Q" (JS.toString 16)) 19 = Return (Some (19 - 16), letter_column "Q") /\
  ~ letter_is_I "T5" /\ JS.has_hex_prefix "5" = false /\ agree_or_off_board 9 "T5".
Proof.
  assert (H1 : usable_letter "Q" = true) by reflexivity.
  assert (H2 : 1 <= 16 <= 19) by lia.
  assert (H3 : letter_column "Q" < 19) by (vm_compute; reflexivity).
  assert (H4 : ~ letter_is_I "T5") by (cbn; discriminate).
  assert (H5 : JS.has_hex_prefix "5" = false) by reflexivity.
  destruct (parsers_agree_on_board 19) as [Hu _].
  destruct (parsers_agree_on_board 9) as (_ & _ & Ha).
  destruct (Hu "Q"%char 16 H1 H2 H3) as [Hr Hp].
  repeat split; try assumption; try lia.
  exact (Ha "T"%char "5" H4 H5).
Defined.

(** ** API client: which operations throw *)

Section ApiClient.

Variables API_BASE MCP_BASE : string.
Variable network : Api.request -> Api.outcome.

Lemma fetch_responded (req : Api.request) (res : Api.response) :
  network req = Api.Responded res -> Api.fetch network req = Return res.
Proof. unfold Api.fetch. intros ->. reflexivity. Qed.

Lemma try_catch_returns {A} (body : completion A) (a : A) :
  (exists r, try_catch body (fun _ => Return a) = Return r) /\
  (forall e, body = Throw e -> try_catch body (fun _ => Return a) = Return a).
Proof.
  split.
  - destruct body as [r | e]; cbn; eauto.
  - intros e ->. reflexivity.
Qed.

(** C4. The engine board-state fetch never throws: whatever the network
    does, the call returns a board or null.  Its request carries the fixed
    10 000 ms timeout, and it returns null on a network failure, on expiry
    of the timeout, on a non-success status, on a body that is not JSON, on
    a missing (or falsy) [result] envelope, and on a [board] that is
    missing, not an array or empty. *)
Theorem getKataGoBoardState_never_throws :
  let req := Api.getKataGoBoardState_request MCP_BASE in
  let call := Api.getKataGoBoardState MCP_BASE network in
  (exists r, call = Return r) /\
  Api.timeout_ms req = Some 10000 /\
  (network req = Api.NetworkFailure -> call = Return None) /\
  (network req = Api.TimedOut -> call = Return None) /\
  (forall res, network req = Api.Responded res ->
     (Api.ok res = false -> call = Return None) /\
     (Api.json_body res = None -> call = Return None) /\
     (forall data, Api.json_body res = Some data ->
        (forall e, get data "result" = Throw e -> call = Return None) /\
        (forall result, get data "result" = Return result ->
           (truthy result = false -> call = Return None) /\
           (forall board, get result "board" = Return board ->
              (forall rows, board = Arr rows -> rows = []) -> call = Return None)))) /\
  (forall res data result rows size,
     network req = Api.Responded res -> Api.ok res = true ->
     Api.json_body res = Some data -> get data "result" = Return result ->
     truthy result = true -> get result "board" = Return (Arr rows) -> rows <> [] ->
     get result "board_size" = Return size ->
     call = Return (Some {| Api.board := rows;
                            Api.board_size := if truthy size then size
                                              else Num (number_of_length rows) |})).
Proof.
  cbv zeta. unfold Api.getKataGoBoardState.
  split; [apply try_catch_returns |].
  split; [reflexivity |].
  split; [intros H; unfold Api.fetch; rewrite H; reflexivity |].
  split; [intros H; unfold Api.fetch; rewrite H; reflexivity |].
  split.
  2: { intros res data result rows size Hres Hok Hdata Hresult Htruthy Hboard Hrows Hsize.
       rewrite (fetch_responded _ _ Hres). cbn [mbind completion_bind].
       rewrite Hok. cbn [negb]. cbv iota. unfold Api.json. rewrite Hdata.
       cbn [mbind completion_bind]. rewrite Hresult. cbn [mbind completion_bind].
       rewrite Htruthy. cbn [negb]. cbv iota. rewrite Hboard.
       cbn [mbind completion_bind].
       destruct rows as [|row rows]; [congruence |].
       cbn [length Nat.eqb]. cbv iota. rewrite Hsize. reflexivity. }
  intros res Hres. rewrite (fetch_responded _ _ Hres). cbn [mbind completion_bind].
  split; [intros ->; reflexivity |].
  destruct (Api.ok res); cbn [negb]; cbv iota.
  2: { split; [reflexivity |]. intros data _.
       split; [reflexivity |]. intros result _. split; reflexivity. }
  unfold Api.json.
  split; [intros ->; reflexivity |].
  intros data ->. cbn [mbind completion_bind].
  split; [intros e ->; reflexivity |].
  intros result ->. cbn [mbind completion_bind].
  split; [intros ->; reflexivity |].
  intros board Hb Hrows.
  destruct (truthy result); cbn [negb]; cbv iota; [| reflexivity].
  rewrite Hb. cbn [mbind completion_bind].
  destruct board as [| | | | | rows |]; try reflexivity.
  rewrite (Hrows rows eq_refl). reflexivity.
Qed.


(** Rejections that are not the client's own: a failed [fetch] and a body
    that is not JSON reject [sendChatMessage] as they reject every other
    operation. *)
Lemma rejections_propagate (gameId : Z) (content : string) (role : option string) :
  (network (Api.sendChatMessage_request API_BASE gameId content role) = Api.NetworkFailure ->
   Api.sendChatMessage API_BASE network gameId content role = Throw TypeError) /\
  (forall res,
     network (Api.sendChatMessage_request API_BASE gameId content role) = Api.Responded res ->
     Api.ok res = true -> Api.json_body res = None ->
     Api.sendChatMessage API_BASE network gameId content role = Throw SyntaxError) /\
  (network (Api.getGameBoard_request API_BASE gameId) = Api.NetworkFailure ->
   Api.getGameBoard API_BASE network gameId = Throw TypeError) /\
  (forall res,
     network (Api.getGameBoard_request API_BASE gameId) = Api.Responded res ->
     Api.json_body res = None ->
     Api.getGameBoard API_BASE network gameId = Throw SyntaxError).
Proof.
  unfold Api.sendChatMessage, Api.getGameBoard, Api.fetch, Api.json.
  repeat split.
  - intros ->. reflexivity.
  - intros res -> Hok Hbody. cbn [mbind completion_bind]. rewrite Hok, Hbody. reflexivity.
  - intros ->. reflexivity.
  - intros res -> Hbody. cbn [mbind completion_bind]. rewrite Hbody. reflexivity.
Qed.

End ApiClient.




(** ** Board renderer: star points *)

Section StarPoints.

(** The circles are drawn exactly at the marked cells inside the board. *)
Lemma in_starPointElements (size : Z) (stars : list (list bool)) (r c : nat) :
  In (r, c) (GoBoard.starPointElements size stars) <->
  (r < Z.to_nat size)%nat /\ (c < Z.to_nat size)%nat /\ GoBoard.is_star stars r c = true.
Proof.
  unfold GoBoard.starPointElements. cbv zeta. rewrite in_flat_map. split.
  - intros (r' & Hr & Hin). rewrite in_flat_map in Hin.
    destruct Hin as (c' & Hc & Hin).
    apply in_seq in Hr, Hc.
    destruct (GoBoard.is_star stars r' c') eqn:E; [| destruct Hin].
    destruct Hin as [[= <- <-] | []]. repeat split; (lia || exact E).
  - intros (Hr & Hc & E). exists r. split; [apply in_seq; lia |].
    rewrite in_flat_map. exists c. split; [apply in_seq; lia |].
    rewrite E. left. reflexivity.
Qed.

(** A marked cell lies within the array. *)
Lemma is_star_within (n : nat) (stars : list (list bool)) (r c : nat) :
  length stars = n -> Forall (fun row => length row = n) stars ->
  GoBoard.is_star stars r c = true -> (r < n)%nat /\ (c < n)%nat.
Proof.
  intros Hlen Hrows. unfold GoBoard.is_star.
  destruct (stars !! r) as [row|] eqn:Er; [| discriminate].
  pose proof (lookup_lt_Some _ _ _ Er) as Hr.
  pose proof (Forall_lookup_1 _ _ _ _ Hrows Er) as Hrow. cbn beta in Hrow.
  destruct (row !! c) as [v|] eqn:Ec; [| discriminate].
  pose proof (lookup_lt_Some _ _ _ Ec) as Hc.
  intros _. lia.
Qed.

(** On a square array the marked cells are the drawn circles. *)
Lemma is_star_iff_drawn (n : nat) (stars : list (list bool)) (r c : nat) :
  length stars = n -> Forall (fun row => length row = n) stars ->
  GoBoard.is_star stars r c = true <->
  In (r, c) (GoBoard.starPointElements (Z.of_nat n) stars).
Proof.
  intros Hlen Hrows. rewrite in_starPointElements, Nat2Z.id. split.
  - intros E. destruct (is_star_within n stars r c Hlen Hrows E). auto.
  - intros (_ & _ & E). exact E.
Qed.

End StarPoints.

(** C8. The star points computed by [renderStarPoints], and the circles
    drawn from them, are exactly (3,3) (3,9) (3,15) (9,3) (9,9) (9,15)
    (15,3) (15,9) (15,15) on a 19x19 board, (3,3) (3,9) (9,3) (9,9) on a
    13x13 board, and (2,2) (2,6) (6,2) (6,6) (4,4) on a 9x9 board. *)
Theorem star_points :
  (exists stars, GoBoard.renderStarPoints 19 = Return stars /\
     forall r c,
       (GoBoard.is_star stars r c = true <->
        In (r, c) [(3, 3); (3, 9); (3, 15); (9, 3); (9, 9); (9, 15);
                   (15, 3); (15, 9); (15, 15)]%nat) /\
       (In (r, c) (GoBoard.starPointElements 19 stars) <->
        In (r, c) [(3, 3); (3, 9); (3, 15); (9, 3); (9, 9); (9, 15);
                   (15, 3); (15, 9); (15, 15)]%nat)) /\
  (exists stars, GoBoard.renderStarPoints 13 = Return stars /\
     forall r c,
       (GoBoard.is_star stars r c = true <->
        In (r, c) [(3, 3); (3, 9); (9, 3); (9, 9)]%nat) /\
       (In (r, c) (GoBoard.starPointElements 13 stars) <->
        In (r, c) [(3, 3); (3, 9); (9, 3); (9, 9)]%nat)) /\
  (exists stars, GoBoard.renderStarPoints 9 = Return stars /\
     forall r c,
       (GoBoard.is_star stars r c = true <->
        In (r, c) [(2, 2); (2, 6); (6, 2); (6, 6); (4, 4)]%nat) /\
       (In (r, c) (GoBoard.starPointElements 9 stars) <->
        In (r, c) [(2, 2); (2, 6); (6, 2); (6, 6); (4, 4)]%nat)).
Proof.
  split; [| split].
  - eexists. split; [vm_compute; reflexivity |]. intros r c.
    match goal with |- (GoBoard.is_star ?s _ _ = _ <-> _) /\ _ =>
      assert (Hsq : length s = 19%nat /\ Forall (fun row => length row = 19%nat) s)
        by square_array;
      assert (Hdrawn : GoBoard.starPointElements 19 s =
                [(3, 3); (3, 9); (3, 15); (9, 3); (9, 9); (9, 15);
                 (15, 3); (15, 9); (15, 15)]%nat) by (vm_compute; reflexivity)
    end.
    destruct Hsq as [Hlen Hrows].
    rewrite (is_star_iff_drawn 19 _ r c Hlen Hrows).
    change (Z.of_nat 19) with 19. rewrite Hdrawn. split; reflexivity.
  - eexists. split; [vm_compute; reflexivity |]. intros r c.
    match goal with |- (GoBoard.is_star ?s _ _ = _ <-> _) /\ _ =>
      assert (Hsq : length s = 13%nat /\ Forall (fun row => length row = 13%nat) s)
        by square_array;
      assert (Hdrawn : GoBoard.starPointElements 13 s =
                [(3, 3); (3, 9); (9, 3); (9, 9)]%nat) by (vm_compute; reflexivity)
    end.
    destruct Hsq as [Hlen Hrows].
    rewrite (is_star_iff_drawn 13 _ r c Hlen Hrows).
    change (Z.of_nat 13) with 13. rewrite Hdrawn. split; reflexivity.
  - eexists. split; [vm_compute; reflexivity |]. intros r c.
    match goal with |- (GoBoard.is_star ?s _ _ = _ <-> _) /\ _ =>
      assert (Hsq : length s = 9%nat /\ Forall (fun row => length row = 9%nat) s)
        by square_array;
      assert (Hdrawn : GoBoard.starPointElements 9 s =
                [(2, 2); (2, 6); (4, 4); (6, 2); (6, 6)]%nat) by (vm_compute; reflexivity)
    end.
    destruct Hsq as [Hlen Hrows].
    rewrite (is_star_iff_drawn 9 _ r c Hlen Hrows).
    change (Z.of_nat 9) with 9. rewrite Hdrawn. split; same_points.
Qed.

(** ** Page controller: starting a game *)

(** C3. The engine-moves-first condition of [startGame] is true exactly
    when (handicap = 0 and the user is White) or (handicap > 0 and the user
    is Black); it is false for handicap = 0 with Black and for handicap > 0
    with White. *)
Theorem llmShouldMoveFirst_spec (config : Page.Config) :
  (Page.llmShouldMoveFirst config = true <->
     (Page.handicap config = 0 /\ Page.userColor config = "W") \/
     (Page.handicap config > 0 /\ Page.userColor config = "B")) /\
  (Page.handicap config = 0 -> Page.userColor config = "W" ->
     Page.llmShouldMoveFirst config = true) /\
  (Page.handicap config > 0 -> Page.userColor config = "B" ->
     Page.llmShouldMoveFirst config = true) /\
  (Page.handicap config = 0 -> Page.userColor config = "B" ->
     Page.llmShouldMoveFirst config = false) /\
  (Page.handicap config > 0 -> Page.userColor config = "W" ->
     Page.llmShouldMoveFirst config = false).
Proof.
  unfold Page.llmShouldMoveFirst.
  destruct (Z.eqb_spec (Page.handicap config) 0) as [H0 | H0],
    (Z.ltb_spec 0 (Page.handicap config)) as [Hp | Hp],
    (String.eqb_spec (Page.userColor config) "W") as [HW | HW],
    (String.eqb_spec (Page.userColor config) "B") as [HB | HB];
    cbn [andb orb];
    try (exfalso; lia); try (exfalso; rewrite HW in HB; discriminate HB);
    (split; [split; [intros H; first [discriminate H | left; split; [lia | assumption]
                                      | right; split; [lia | assumption]]
                    | intros [[? ?] | [? ?]]; first [reflexivity | exfalso; lia
                                                     | exfalso; congruence]]
           | repeat split; intros; first [reflexivity | exfalso; lia | exfalso; congruence]]).
Qed.

(** X1. When the engine moves first and its first move arrives with a
    board, the page shows that board, a single chat entry (the engine's
    message, or "I play <move>" when it sends none) and the last-move
    marker on that move; both in-flight flags are cleared and no banner is
    shown. *)
Lemma startGame_engine_first (env : Page.StartEnv) (config : Page.Config) (st : Page.State)
  (newGame : Game.t) (first : Page.FirstMove) (c : ascii) (r : string) (b : BoardState.t) :
  Page.llmShouldMoveFirst config = true ->
  Page.se_createGame env = Return newGame ->
  Page.se_getFirstMove env = Return first ->
  Page.move first = Some (String c r) -> Page.board_state first = Some b ->
  let st' := fst (Page.startGame env config st) in
  Page.game st' = Some newGame /\ Page.boardState st' = Some b /\
  Page.lastMoveCoord st' = Some (String c r) /\
  Page.messages st' =
    [ChatMsg.mk (Page.se_now_first env) assistant
       (or_else (Page.message first) ("I play " ++ String c r)) (Page.se_date_first env)] /\
  Page.isSubmitting st' = false /\ Page.isThinking st' = false /\ Page.error st' = None.
Proof.
  intros Hfirst Hgame Hmove Hmv Hb. cbv zeta.
  destruct st. unfold Page.startGame. run.
  rewrite Hgame. run. rewrite Hfirst. run. rewrite Hmove. run. rewrite Hmv. run.
  rewrite Hb. run. repeat split; reflexivity.
Qed.

(** X2. When the user moves first and the backend answers, the page shows
    the stored board and the stored chat history; the last-move marker and
    the typing indicator are untouched, and no banner is shown. *)
Lemma startGame_user_first (env : Page.StartEnv) (config : Page.Config) (st : Page.State)
  (newGame : Game.t) (b : BoardState.t) (msgs : list ChatMsg.t) :
  Page.llmShouldMoveFirst config = false ->
  Page.se_createGame env = Return newGame ->
  Page.se_getGameBoard env = Return b ->
  Page.se_getChatMessages env = Return msgs ->
  let st' := fst (Page.startGame env config st) in
  Page.game st' = Some newGame /\ Page.boardState st' = Some b /\
  Page.messages st' = msgs /\ Page.lastMoveCoord st' = Page.lastMoveCoord st /\
  Page.isSubmitting st' = false /\ Page.isThinking st' = Page.isThinking st /\
  Page.error st' = None.
Proof.
  intros Hfirst Hgame Hb Hmsgs. cbv zeta.
  destruct st. unfold Page.startGame. run.
  rewrite Hgame. run. rewrite Hfirst. run. rewrite Hb. run. rewrite Hmsgs. run.
  repeat split; reflexivity.
Qed.

(** ** Page controller: submitting a move *)

Section MoveSubmission.

Variable env : Page.MoveEnv.
Variable st : Page.State.
Variable g : Game.t.
Variables (c0 : ascii) (rest : string).

Hypothesis Hgame : Page.game st = Some g.
Hypothesis Hidle : Page.isSubmitting st = false.

Let coordinate : string := String c0 rest.
Let userMsgId : Z := Page.me_now_submit env.
Let optimistic : ChatMsg.t :=
  ChatMsg.mk userMsgId user ("My move: " ++ coordinate) (Page.me_date_submit env).
Let confirmed : ChatMsg.t :=
  ChatMsg.mk userMsgId user ("My move: " ++ coordinate) (Page.me_date_user env).
Let reply (result : Page.SubmitResult) : ChatMsg.t :=
  ChatMsg.mk (Page.me_now_reply env + 1) assistant (Page.bot_response result)
    (Page.me_date_reply env).

Ltac start :=
  subst coordinate userMsgId optimistic confirmed reply;
  revert Hgame Hidle; destruct st; cbn [Page.game Page.isSubmitting];
  intros -> ->; unfold Page.handleMoveSubmit; run.

(** The run when [submitMove] rejects. *)
Lemma run_submit_rejected (e : exn) :
  Page.me_submitMove env = Throw e ->
  Page.handleMoveSubmit env coordinate st =
  ({| Page.game := Some g; Page.boardState := Page.boardState st;
      Page.messages := Page.without userMsgId (Page.messages st ++ [optimistic]);
      Page.isSubmitting := false; Page.isThinking := false;
      Page.previewCoord := None; Page.error := Some "Failed to submit move";
      Page.pendingMove := None; Page.lastMoveCoord := Page.lastMoveCoord st |},
   Return tt).
Proof.
  intros Hs. start. rewrite Hs. reflexivity.
Qed.

(** The state all runs with an accepted move share once the reply is in. *)
Let replied (result : Page.SubmitResult) (board : option BoardState.t)
  (banner : option string) (msgs : list ChatMsg.t) : Page.State :=
  {| Page.game := Some g; Page.boardState := board; Page.messages := msgs;
     Page.isSubmitting := false; Page.isThinking := false;
     Page.previewCoord := None; Page.error := banner; Page.pendingMove := None;
     Page.lastMoveCoord :=
       if truthy (Page.ai_move result) then Page.ai_move result else Some coordinate |}.

Let thread (result : Page.SubmitResult) : list ChatMsg.t :=
  Page.without userMsgId (Page.messages st ++ [optimistic]) ++ [confirmed; reply result].

(** The run when the engine offers a grid. *)
Lemma run_engine_board (result : Page.SubmitResult) (kb : KataGoBoardState.t) :
  Page.me_submitMove env = Return result ->
  Page.me_getKataGoBoardState env = Return (Some kb) ->
  KataGoBoardState.board kb <> [] ->
  Page.handleMoveSubmit env coordinate st =
  (replied result (Page.engineBoardUpdate g kb (Page.boardState st)) None (thread result),
   Return tt).
Proof.
  intros Hs He Hb. subst replied thread. start. rewrite Hs. run.
  destruct (truthy (Page.ai_move result)); run; rewrite He; run.
  all: destruct (KataGoBoardState.board kb) as [|r0 rows] eqn:E; [congruence |].
  all: cbn [length Nat.ltb Nat.leb]; cbv iota; reflexivity.
Qed.

(** The run when the engine offers no grid and the database answers. *)
Lemma run_database_board (result : Page.SubmitResult)
  (kataGoBoard : option KataGoBoardState.t) (board : BoardState.t) :
  Page.me_submitMove env = Return result ->
  Page.me_getKataGoBoardState env = Return kataGoBoard ->
  no_engine_grid kataGoBoard ->
  Page.me_getGameBoard env = Return board ->
  Page.handleMoveSubmit env coordinate st =
  (replied result (Some board) None (thread result), Return tt).
Proof.
  intros Hs He Hn Hd. subst replied thread. start. rewrite Hs. run.
  destruct (truthy (Page.ai_move result)); run; rewrite He; run.
  all: destruct kataGoBoard as [kb|]; cbn in Hn;
    [rewrite Hn; cbn [length Nat.ltb Nat.leb]; cbv iota |]; rewrite Hd; reflexivity.
Qed.

(** The run when the engine offers no grid and the database fetch rejects. *)
Lemma run_database_rejected (result : Page.SubmitResult)
  (kataGoBoard : option KataGoBoardState.t) (e : exn) :
  Page.me_submitMove env = Return result ->
  Page.me_getKataGoBoardState env = Return kataGoBoard ->
  no_engine_grid kataGoBoard ->
  Page.me_getGameBoard env = Throw e ->
  Page.handleMoveSubmit env coordinate st =
  (replied result (Page.boardState st) (Some "Failed to submit move")
     (Page.without userMsgId (thread result)),
   Return tt).
Proof.
  intros Hs He Hn Hd. subst replied thread. start. rewrite Hs. run.
  destruct (truthy (Page.ai_move result)); run; rewrite He; run.
  all: destruct kataGoBoard as [kb|]; cbn in Hn;
    [rewrite Hn; cbn [length Nat.ltb Nat.leb]; cbv iota |]; rewrite Hd; reflexivity.
Qed.

(** The run when the engine status fetch itself rejects. *)
Lemma run_engine_rejected (result : Page.SubmitResult) (e : exn) :
  Page.me_submitMove env = Return result ->
  Page.me_getKataGoBoardState env = Throw e ->
  Page.handleMoveSubmit env coordinate st =
  (replied result (Page.boardState st) (Some "Failed to submit move")
     (Page.without userMsgId (thread result)),
   Return tt).
Proof.
  intros Hs He. subst replied thread. start. rewrite Hs. run.
  destruct (truthy (Page.ai_move result)); run; rewrite He; reflexivity.
Qed.

End MoveSubmission.

Section MessageFilter.

Variable userMsgId : Z.

Lemma without_id (l : list ChatMsg.t) (m : ChatMsg.t) :
  In m (Page.without userMsgId l) -> ChatMsg.id m <> userMsgId.
Proof.
  unfold Page.without. rewrite filter_In. intros [_ H] E.
  rewrite E, Z.eqb_refl in H. discriminate H.
Qed.

Lemma without_optimistic (l : list ChatMsg.t) (m : ChatMsg.t) :
  ChatMsg.id m = userMsgId ->
  Page.without userMsgId (l ++ [m]) = Page.without userMsgId l.
Proof.
  intros E. unfold Page.without. rewrite List.filter_app. cbn [List.filter].
  rewrite E, Z.eqb_refl. cbn [negb]. apply app_nil_r.
Qed.

Lemma without_fresh (l : list ChatMsg.t) :
  (forall m, In m l -> ChatMsg.id m <> userMsgId) -> Page.without userMsgId l = l.
Proof.
  intros H. unfold Page.without. induction l as [|m l IH]; [reflexivity |].
  cbn [List.filter].
  destruct (Z.eqb_spec (ChatMsg.id m) userMsgId) as [E | E].
  - exfalso. apply (H m); [left; reflexivity | exact E].
  - cbn [negb]. f_equal. apply IH. intros m' Hm'. apply H. right. exact Hm'.
Qed.

End MessageFilter.

(** C6. While a move submission is in flight ([isSubmitting] set), a
    further submission returns at the guard: the whole state, and so the
    message list and the board state, is unchanged; a click on the board
    does not even reach the handler. *)
Theorem in_flight_submission_is_noop (env : Page.MoveEnv) (coordinate : string)
  (st : Page.State) :
  Page.isSubmitting st = true ->
  Page.handleMoveSubmit env coordinate st = (st, Return tt) /\
  Page.messages (fst (Page.handleMoveSubmit env coordinate st)) = Page.messages st /\
  Page.boardState (fst (Page.handleMoveSubmit env coordinate st)) = Page.boardState st /\
  (forall board_size row col,
     GoBoard.handleCellClick (Page.isSubmitting st) board_size row col = None /\
     Page.boardClick env board_size row col st = (st, Return tt)).
Proof.
  intros Hbusy.
  assert (H : Page.handleMoveSubmit env coordinate st = (st, Return tt)).
  { unfold Page.handleMoveSubmit. rewrite Hbusy. destruct (Page.game st); reflexivity. }
  rewrite H. repeat split.
  - unfold GoBoard.handleCellClick. rewrite Hbusy. reflexivity.
  - unfold Page.boardClick, GoBoard.handleCellClick. rewrite Hbusy. reflexivity.
Qed.

(** C5. When an awaited call of the move submission rejects, the optimistic
    user entry appended before the call is no longer in the message list
    (no entry keeps its id), the error banner is set, and the in-flight
    flags and the pending ghost stone are cleared; when it is [submitMove]
    that rejects, the list is the earlier one without that id and the board
    state is untouched. *)
Theorem failed_submission_rolls_back (env : Page.MoveEnv) (coordinate : string)
  (st : Page.State) (g : Game.t) :
  Page.game st = Some g -> Page.isSubmitting st = false -> coordinate <> "" ->
  awaited_call_rejects env = true ->
  let userMsgId := Page.me_now_submit env in
  let optimistic :=
    ChatMsg.mk userMsgId user ("My move: " ++ coordinate) (Page.me_date_submit env) in
  let st' := fst (Page.handleMoveSubmit env coordinate st) in
  ~ In optimistic (Page.messages st') /\
  (forall m, In m (Page.messages st') -> ChatMsg.id m <> userMsgId) /\
  Page.error st' = Some "Failed to submit move" /\
  Page.isSubmitting st' = false /\ Page.isThinking st' = false /\
  Page.pendingMove st' = None /\
  (forall e, Page.me_submitMove env = Throw e ->
     Page.messages st' = Page.without userMsgId (Page.messages st) /\
     Page.boardState st' = Page.boardState st /\
     ((forall m, In m (Page.messages st) -> ChatMsg.id m <> userMsgId) ->
      Page.messages st' = Page.messages st)).
Proof.
  intros Hgame Hidle Hcoord Hrej. cbv zeta.
  destruct coordinate as [|c0 rest]; [congruence |].
  assert (Hopt : forall l,
            (forall m, In m l -> ChatMsg.id m <> Page.me_now_submit env) ->
            ~ In (ChatMsg.mk (Page.me_now_submit env) user ("My move: " ++ String c0 rest)
                    (Page.me_date_submit env)) l).
  { intros l Hl Hin. apply (Hl _ Hin). reflexivity. }
  unfold awaited_call_rejects in Hrej.
  destruct (Page.me_submitMove env) as [result | e] eqn:Hs.
  - assert (Hrun : exists msgs,
              Page.handleMoveSubmit env (String c0 rest) st =
              ({| Page.game := Some g; Page.boardState := Page.boardState st;
                  Page.messages := Page.without (Page.me_now_submit env) msgs;
                  Page.isSubmitting := false; Page.isThinking := false;
                  Page.previewCoord := None; Page.error := Some "Failed to submit move";
                  Page.pendingMove := None;
                  Page.lastMoveCoord :=
                    if truthy (Page.ai_move result) then Page.ai_move result
                    else Some (String c0 rest) |}, Return tt)).
    { destruct (Page.me_getKataGoBoardState env) as [kataGoBoard | e] eqn:He.
      - assert (Hno : no_engine_grid kataGoBoard /\
                      exists e, Page.me_getGameBoard env = Throw e).
        { destruct kataGoBoard as [kb|]; cbn.
          - destruct (KataGoBoardState.board kb); cbn in Hrej; [| discriminate Hrej].
            destruct (Page.me_getGameBoard env); [discriminate Hrej | eauto].
          - destruct (Page.me_getGameBoard env); [discriminate Hrej | eauto]. }
        destruct Hno as [Hno [e Hd]]. eexists.
        apply (run_database_rejected env st g c0 rest Hgame Hidle result kataGoBoard e);
          assumption.
      - eexists.
        apply (run_engine_rejected env st g c0 rest Hgame Hidle result e); assumption. }
    destruct Hrun as [msgs ->]. cbn [fst Page.messages Page.error Page.isSubmitting
      Page.isThinking Page.pendingMove].
    split; [apply Hopt; intros m; apply without_id |].
    split; [intros m; apply without_id |].
    do 4 (split; [reflexivity |]).
    intros e' He'. discriminate He'.
  - rewrite (run_submit_rejected env st g c0 rest Hgame Hidle e Hs).
    cbn [fst Page.messages Page.error Page.isSubmitting Page.isThinking Page.pendingMove
      Page.boardState].
    rewrite without_optimistic by reflexivity.
    split; [apply Hopt; intros m; apply without_id |].
    split; [intros m; apply without_id |].
    do 4 (split; [reflexivity |]).
    intros e' _. split; [reflexivity |]. split; [reflexivity |].
    apply without_fresh.
Qed.

(** ** Page controller: reconciling the engine's board with the stored one *)

(** What [prev?.field || game.field] picks, field by field. *)
Lemma engineBoardUpdate_fields (g : Game.t) (kb : KataGoBoardState.t)
  (prev : option BoardState.t) :
  exists b, Page.engineBoardUpdate g kb prev = Some b /\
    BoardState.board_size b = KataGoBoardState.board_size kb /\
    BoardState.board b = KataGoBoardState.board kb /\
    (prev = None ->
       BoardState.komi b = Game.komi g /\
       BoardState.user_color b = Game.user_color g /\
       BoardState.ai_color b = Game.ai_color g /\
       BoardState.game_over b = Game.game_over g /\
       BoardState.moves b = []) /\
    (forall p, prev = Some p ->
       BoardState.komi b =
         (if truthy (BoardState.komi p) then BoardState.komi p else Game.komi g) /\
       BoardState.user_color b =
         (if truthy (BoardState.user_color p) then BoardState.user_color p
          else Game.user_color g) /\
       BoardState.ai_color b =
         (if truthy (BoardState.ai_color p) then BoardState.ai_color p
          else Game.ai_color g) /\
       BoardState.game_over b = (BoardState.game_over p || Game.game_over g) /\
       BoardState.moves b = BoardState.moves p).
Proof.
  unfold Page.engineBoardUpdate. eexists. split; [reflexivity |].
  cbn [BoardState.board_size BoardState.board BoardState.komi BoardState.user_color
    BoardState.ai_color BoardState.game_over BoardState.moves].
  split; [reflexivity |]. split; [reflexivity |]. split.
  - intros ->. repeat split; reflexivity.
  - intros p ->. cbn [fmap option_fmap option_map or_else].
    repeat split; try reflexivity.
    unfold truthy, truthy_bool. destruct (BoardState.game_over p); reflexivity.
Qed.

(** C1, as stated, at one input: the prior board state carries komi 0 (a
    game without komi), the Game carries 6.5, the move succeeds and the
    engine reports a grid; the new board state has the Game's komi 6.5, not
    the prior state's. *)
Lemma zero_komi_not_carried_over :
  exists b,
    Page.boardState
      (fst (Page.handleMoveSubmit
              (sample_env (Return sample_reply) (Some engine_board) (Throw TypeError))
              "Q16" (sample_state (Some (sample_board 0%float))))) = Some b /\
    BoardState.board b = KataGoBoardState.board engine_board /\
    BoardState.komi b = 6.5%float /\
    ~ carried_over sample_game (Some (sample_board 0%float)) b.
Proof.
  eexists. split; [vm_compute; reflexivity |].
  split; [reflexivity |]. split; [reflexivity |].
  intros [Hk _]. cbn in Hk.
  apply (f_equal (fun x => PrimFloat.eqb x 0%float)) in Hk.
  vm_compute in Hk. discriminate Hk.
Qed.

(** C1 (amended). After a successful move submission:
    - if the engine status fetch returns a non-null result with a non-empty
      grid, the new board state takes board_size and grid from it; with no
      prior board state, komi, user_color, ai_color and game_over are the
      Game's; with a prior state, each of them is the prior state's value
      when that value is truthy (komi other than 0, a non-empty colour,
      game_over true) and the Game's otherwise, so that they are carried
      over whenever each prior value is truthy or equal to the Game's;
    - if the engine fetch returns null or an empty grid, the board state is
      replaced by the result of a fresh database board fetch. *)
Theorem engine_grid_preferred (env : Page.MoveEnv) (coordinate : string)
  (st : Page.State) (g : Game.t) (result : Page.SubmitResult) :
  Page.game st = Some g -> Page.isSubmitting st = false -> coordinate <> "" ->
  Page.me_submitMove env = Return result ->
  let st' := fst (Page.handleMoveSubmit env coordinate st) in
  (forall kb,
     Page.me_getKataGoBoardState env = Return (Some kb) ->
     KataGoBoardState.board kb <> [] ->
     exists b, Page.boardState st' = Some b /\
       BoardState.board_size b = KataGoBoardState.board_size kb /\
       BoardState.board b = KataGoBoardState.board kb /\
       (Page.boardState st = None -> carried_over g None b) /\
       (forall p, Page.boardState st = Some p ->
          BoardState.komi b =
            (if truthy (BoardState.komi p) then BoardState.komi p else Game.komi g) /\
          BoardState.user_color b =
            (if truthy (BoardState.user_color p) then BoardState.user_color p
             else Game.user_color g) /\
          BoardState.ai_color b =
            (if truthy (BoardState.ai_color p) then BoardState.ai_color p
             else Game.ai_color g) /\
          BoardState.game_over b = (BoardState.game_over p || Game.game_over g) /\
          (truthy (BoardState.komi p) = true \/ BoardState.komi p = Game.komi g ->
           truthy (BoardState.user_color p) = true \/
             BoardState.user_color p = Game.user_color g ->
           truthy (BoardState.ai_color p) = true \/
             BoardState.ai_color p = Game.ai_color g ->
           truthy (BoardState.game_over p) = true \/
             BoardState.game_over p = Game.game_over g ->
           carried_over g (Some p) b))) /\
  (forall kataGoBoard board,
     Page.me_getKataGoBoardState env = Return kataGoBoard ->
     no_engine_grid kataGoBoard ->
     Page.me_getGameBoard env = Return board ->
     Page.boardState st' = Some board).
Proof.
  intros Hgame Hidle Hcoord Hs. cbv zeta.
  destruct coordinate as [|c0 rest]; [congruence |].
  split.
  - intros kb He Hb.
    rewrite (run_engine_board env st g c0 rest Hgame Hidle result kb Hs He Hb).
    cbn [fst Page.boardState].
    destruct (engineBoardUpdate_fields g kb (Page.boardState st))
      as (b & -> & Hsize & Hgrid & Hnone & Hsome).
    exists b. split; [reflexivity |]. split; [exact Hsize |]. split; [exact Hgrid |].
    split.
    + intros Hp. destruct (Hnone Hp) as (Hk & Hu & Ha & Ho & _).
      cbn. auto.
    + intros p Hp. destruct (Hsome p Hp) as (Hk & Hu & Ha & Ho & _).
      split; [exact Hk |]. split; [exact Hu |]. split; [exact Ha |]. split; [exact Ho |].
      intros Tk Tu Ta To. cbn [carried_over]. repeat split.
      * rewrite Hk. destruct Tk as [-> | ->]; [reflexivity |].
        destruct (truthy (Game.komi g)); reflexivity.
      * rewrite Hu. destruct Tu as [-> | ->]; [reflexivity |].
        destruct (truthy (Game.user_color g)); reflexivity.
      * rewrite Ha. destruct Ta as [-> | ->]; [reflexivity |].
        destruct (truthy (Game.ai_color g)); reflexivity.
      * rewrite Ho. unfold truthy, truthy_bool in To. destruct To as [-> | ->];
          [reflexivity | apply orb_diag].
  - intros kataGoBoard board He Hn Hd.
    rewrite (run_database_board env st g c0 rest Hgame Hidle result kataGoBoard board
               Hs He Hn Hd).
    reflexivity.
Qed.

Lemma engine_grid_preferred_witness :
  exists b,
    Page.boardState
      (fst (Page.handleMoveSubmit
              (sample_env (Return sample_reply) (Some engine_board) (Throw TypeError))
              "Q16" (sample_state (Some (sample_board 6.5%float))))) = Some b /\
    BoardState.board b = KataGoBoardState.board engine_board /\
    carried_over sample_game (Some (sample_board 6.5%float)) b.
Proof.
  pose (env := sample_env (Return sample_reply) (Some engine_board) (Throw TypeError)).
  pose (st := sample_state (Some (sample_board 6.5%float))).
  assert (Hgame : Page.game st = Some sample_game) by reflexivity.
  assert (Hidle : Page.isSubmitting st = false) by reflexivity.
  assert (Hcoord : "Q16" <> "") by discriminate.
  assert (Hs : Page.me_submitMove env = Return sample_reply) by reflexivity.
  destruct (engine_grid_preferred env "Q16" st sample_game sample_reply
              Hgame Hidle Hcoord Hs) as [Hengine _].
  assert (He : Page.me_getKataGoBoardState env = Return (Some engine_board)) by reflexivity.
  assert (Hb : KataGoBoardState.board engine_board <> []) by (vm_compute; discriminate).
  destruct (Hengine engine_board He Hb) as (b & Hst & _ & Hgrid & _ & Hprev).
  exists b. split; [exact Hst |]. split; [exact Hgrid |].
  destruct (Hprev (sample_board 6.5%float) eq_refl) as (_ & _ & _ & _ & Hcarried).
  apply Hcarried; [left | left | left | right]; reflexivity.
Defined.

(** ** The theorems at sample inputs *)

Lemma llmShouldMoveFirst_spec_witness :
  Page.llmShouldMoveFirst (sample_config 0 "W") = true /\
  Page.llmShouldMoveFirst (sample_config 2 "B") = true /\
  Page.llmShouldMoveFirst (sample_config 0 "B") = false /\
  Page.llmShouldMoveFirst (sample_config 2 "W") = false.
Proof.
  destruct (llmShouldMoveFirst_spec (sample_config 0 "W")) as (_ & HW0 & _).
  destruct (llmShouldMoveFirst_spec (sample_config 2 "B")) as (_ & _ & HB2 & _).
  destruct (llmShouldMoveFirst_spec (sample_config 0 "B")) as (_ & _ & _ & HB0 & _).
  destruct (llmShouldMoveFirst_spec (sample_config 2 "W")) as (_ & _ & _ & _ & HW2).
  split; [apply HW0; reflexivity |].
  split; [apply HB2; reflexivity |].
  split; [apply HB0; reflexivity | apply HW2; reflexivity].
Defined.

Lemma getKataGoBoardState_never_throws_witness :
  Api.getKataGoBoardState "http://localhost:3001" (fun _ => Api.TimedOut) = Return None /\
  Api.getKataGoBoardState "http://localhost:3001" (fun _ => Api.Responded server_error) =
    Return None /\
  Api.getKataGoBoardState "http://localhost:3001"
    (fun _ => Api.Responded (engine_reply (Obj [("board", Arr [])]))) = Return None.
Proof.
  split; [| split].
  - apply (getKataGoBoardState_never_throws "http://localhost:3001" (fun _ => Api.TimedOut)).
    reflexivity.
  - destruct (getKataGoBoardState_never_throws "http://localhost:3001"
                (fun _ => Api.Responded server_error)) as (_ & _ & _ & _ & H & _).
    destruct (H server_error eq_refl) as (Hstatus & _).
    apply Hstatus. reflexivity.
  - destruct (getKataGoBoardState_never_throws "http://localhost:3001"
                (fun _ => Api.Responded (engine_reply (Obj [("board", Arr [])]))))
      as (_ & _ & _ & _ & H & _).
    destruct (H (engine_reply (Obj [("board", Arr [])])) eq_refl) as (_ & _ & Hdata).
    destruct (Hdata _ eq_refl) as [_ Hresult].
    destruct (Hresult _ eq_refl) as [_ Hboard].
    apply (Hboard (Arr []) eq_refl). intros rows [= <-]. reflexivity.
Defined.


Lemma in_flight_submission_is_noop_witness :
  Page.isSubmitting busy_state = true /\
  Page.handleMoveSubmit
    (sample_env (Return sample_reply) (Some engine_board) (Throw TypeError))
    "D4" busy_state = (busy_state, Return tt).
Proof.
  split; [reflexivity |].
  apply (in_flight_submission_is_noop _ "D4" busy_state). reflexivity.
Defined.

Lemma failed_submission_rolls_back_witness :
  let st' :=
    fst (Page.handleMoveSubmit (sample_env (Throw TypeError) None (Throw TypeError))
           "Q16" (sample_state None)) in
  Page.messages st' = [] /\ Page.error st' = Some "Failed to submit move" /\
  Page.isSubmitting st' = false /\ Page.isThinking st' = false /\
  Page.pendingMove st' = None.
Proof.
  pose (env := sample_env (Throw TypeError) None (Throw TypeError)).
  assert (Hgame : Page.game (sample_state None) = Some sample_game) by reflexivity.
  assert (Hidle : Page.isSubmitting (sample_state None) = false) by reflexivity.
  assert (Hcoord : "Q16" <> "") by discriminate.
  assert (Hrej : awaited_call_rejects env = true) by reflexivity.
  destruct (failed_submission_rolls_back env "Q16" (sample_state None) sample_game
              Hgame Hidle Hcoord Hrej) as (_ & _ & Herr & Hsub & Hthink & Hpend & Hmsgs).
  destruct (Hmsgs TypeError eq_refl) as (Hm & _).
  cbv zeta. repeat split; assumption.
Defined.

(** * Further properties of the code *)

(** ** Starting a game *)

Lemma startGame_engine_first_witness :
  let env := start_env (Return sample_game) (Return (first_move_reply (Some "D4")))
               (Throw TypeError) (Throw TypeError) in
  let st' := fst (Page.startGame env (sample_config 2 "B") Page.initialState) in
  Page.llmShouldMoveFirst (sample_config 2 "B") = true /\
  Page.game st' = Some sample_game /\
  Page.boardState st' = Some (sample_board 0.5%float) /\
  Page.lastMoveCoord st' = Some "D4" /\
  Page.isSubmitting st' = false /\ Page.isThinking st' = false.
Proof.
  assert (Hfirst : Page.llmShouldMoveFirst (sample_config 2 "B") = true) by reflexivity.
  destruct (startGame_engine_first
              (start_env (Return sample_game) (Return (first_move_reply (Some "D4")))
                 (Throw TypeError) (Throw TypeError))
              (sample_config 2 "B") Page.initialState sample_game
              (first_move_reply (Some "D4")) "D"%char "4" (sample_board 0.5%float)
              Hfirst eq_refl eq_refl eq_refl eq_refl)
    as (Hg & Hb & Hl & _ & Hs & Ht & _).
  cbv zeta. repeat split; assumption.
Defined.

Lemma startGame_user_first_witness :
  let env := start_env (Return sample_game) (Throw TypeError)
               (Return (sample_board 6.5%float)) (Return []) in
  let st' := fst (Page.startGame env (sample_config 0 "B") Page.initialState) in
  Page.llmShouldMoveFirst (sample_config 0 "B") = false /\
  Page.game st' = Some sample_game /\
  Page.boardState st' = Some (sample_board 6.5%float) /\
  Page.messages st' = [] /\ Page.isSubmitting st' = false.
Proof.
  assert (Hfirst : Page.llmShouldMoveFirst (sample_config 0 "B") = false) by reflexivity.
  destruct (startGame_user_first
              (start_env (Return sample_game) (Throw TypeError)
                 (Return (sample_board 6.5%float)) (Return []))
              (sample_config 0 "B") Page.initialState sample_game
              (sample_board 6.5%float) [] Hfirst eq_refl eq_refl eq_refl)
    as (Hg & Hb & Hm & _ & Hs & _).
  cbv zeta. repeat split; assumption.
Defined.

(** X3. [startGame] never rejects and never leaves the form disabled: whatever
    the backend answers, its promise resolves and [isSubmitting] is false
    at the end. *)
Theorem startGame_settles (env : Page.StartEnv) (config : Page.Config) (st : Page.State) :
  snd (Page.startGame env config st) = Return tt /\
  Page.isSubmitting (fst (Page.startGame env config st)) = false.
Proof.
  destruct st. unfold Page.startGame. run.
  destruct (Page.se_createGame env) as [newGame | e]; run; [| split; reflexivity].
  destruct (Page.llmShouldMoveFirst config); run.
  - destruct (Page.se_getFirstMove env) as [first | e]; run; [| split; reflexivity].
    destruct (Page.move first) as [[|c r] |]; run; try (split; reflexivity).
    destruct (Page.board_state first); run; split; reflexivity.
  - destruct (Page.se_getGameBoard env) as [b | e]; run; [| split; reflexivity].
    destruct (Page.se_getChatMessages env) as [msgs | e]; run; split; reflexivity.
Qed.

(** X4. When [createGame] rejects, the page stays on the setup screen with the
    start-failure banner; the game, board and chat are as they were. *)
Theorem startGame_creation_fails (env : Page.StartEnv) (config : Page.Config)
  (st : Page.State) (e : exn) :
  Page.se_createGame env = Throw e ->
  let st' := fst (Page.startGame env config st) in
  Page.game st' = Page.game st /\ Page.screen st' = Page.screen st /\
  Page.banner st' = Some "Failed to start game. Make sure the backend server is running." /\
  Page.boardState st' = Page.boardState st /\ Page.messages st' = Page.messages st /\
  Page.isThinking st' = Page.isThinking st /\ Page.lastMoveCoord st' = Page.lastMoveCoord st.
Proof.
  intros Hc. cbv zeta. unfold Page.screen, Page.banner.
  destruct st. unfold Page.startGame. run. rewrite Hc. run.
  repeat split; reflexivity.
Qed.

Lemma startGame_creation_fails_witness :
  let env := start_env (Throw TypeError) (Throw TypeError) (Throw TypeError)
               (Throw TypeError) in
  let st' := fst (Page.startGame env (sample_config 0 "B") Page.initialState) in
  Page.screen st' = Page.SetupScreen /\
  Page.banner st' = Some "Failed to start game. Make sure the backend server is running.".
Proof.
  destruct (startGame_creation_fails
              (start_env (Throw TypeError) (Throw TypeError) (Throw TypeError)
                 (Throw TypeError))
              (sample_config 0 "B") Page.initialState TypeError eq_refl)
    as (_ & Hs & Hb & _).
  cbv zeta. split; [exact Hs | exact Hb].
Defined.



(** X6. When the engine should move first but the reply carries no move (null
    or the empty string), the board state of the reply is not installed:
    the chat is emptied, no banner is shown, and the board keeps showing
    what it showed (the loading placeholder on a fresh page). *)
Theorem startGame_reply_without_move (env : Page.StartEnv) (config : Page.Config)
  (st : Page.State) (newGame : Game.t) (first : Page.FirstMove) :
  Page.llmShouldMoveFirst config = true ->
  Page.se_createGame env = Return newGame ->
  Page.se_getFirstMove env = Return first ->
  truthy (Page.move first) = false ->
  let st' := fst (Page.startGame env config st) in
  Page.boardState st' = Page.boardState st /\
  GoBoard.showsLoading (Page.boardState st') = GoBoard.showsLoading (Page.boardState st) /\
  Page.messages st' = [] /\ Page.error st' = None /\
  Page.lastMoveCoord st' = Page.lastMoveCoord st /\ Page.game st' = Some newGame /\
  Page.isThinking st' = false.
Proof.
  intros Hfirst Hc Hf Hmove. cbv zeta.
  destruct st. unfold Page.startGame. run. rewrite Hc. run. rewrite Hfirst. run.
  rewrite Hf. run.
  destruct (Page.move first) as [[|c r] |]; [| discriminate Hmove |]; run;
    repeat split; reflexivity.
Qed.

Lemma startGame_reply_without_move_witness :
  let env := start_env (Return sample_game) (Return (first_move_reply None))
               (Throw TypeError) (Throw TypeError) in
  let st' := fst (Page.startGame env (sample_config 0 "W") Page.initialState) in
  Page.board_state (first_move_reply None) = Some (sample_board 0.5%float) /\
  Page.boardState st' = None /\ GoBoard.showsLoading (Page.boardState st') = true /\
  Page.messages st' = [] /\ Page.error st' = None.
Proof.
  destruct (startGame_reply_without_move
              (start_env (Return sample_game) (Return (first_move_reply None))
                 (Throw TypeError) (Throw TypeError))
              (sample_config 0 "W") Page.initialState sample_game (first_move_reply None)
              eq_refl eq_refl eq_refl eq_refl)
    as (Hb & Hl & Hm & He & _).
  cbv zeta. repeat split; assumption.
Defined.

(** ** Submitting a move: settlement, the chat thread, the markers *)

(** Every run that passes the guard with a non-empty coordinate. *)
Lemma handleMoveSubmit_cases (env : Page.MoveEnv) (st : Page.State) (g : Game.t)
  (c0 : ascii) (rest : string) :
  Page.game st = Some g -> Page.isSubmitting st = false ->
  exists board msgs last,
    Page.handleMoveSubmit env (String c0 rest) st =
    ({| Page.game := Some g; Page.boardState := board; Page.messages := msgs;
        Page.isSubmitting := false; Page.isThinking := false;
        Page.previewCoord := None;
        Page.error := if awaited_call_rejects env then Some "Failed to submit move"
                      else None;
        Page.pendingMove := None; Page.lastMoveCoord := last |}, Return tt).
Proof.
  intros Hgame Hidle. unfold awaited_call_rejects.
  destruct (Page.me_submitMove env) as [result | e] eqn:Hs.
  - destruct (Page.me_getKataGoBoardState env) as [kataGoBoard | e] eqn:He.
    + assert (Hgrid : (exists kb, kataGoBoard = Some kb /\ KataGoBoardState.board kb <> []) \/
                      no_engine_grid kataGoBoard).
      { destruct kataGoBoard as [kb|]; [| right; exact I].
        destruct (KataGoBoardState.board kb) eqn:E; [right; exact E |].
        left. exists kb. split; [reflexivity | congruence]. }
      destruct Hgrid as [(kb & -> & Hb) | Hn].
      * rewrite (run_engine_board env st g c0 rest Hgame Hidle result kb Hs He Hb).
        destruct (KataGoBoardState.board kb); [congruence |].
        cbn [length Nat.ltb Nat.leb]. cbv iota. eauto.
      * assert (Hsame : (match kataGoBoard with
                         | Some kb =>
                             if (0 <? length (KataGoBoardState.board kb))%nat then false
                             else match Page.me_getGameBoard env with
                                  | Throw _ => true | Return _ => false end
                         | None =>
                             match Page.me_getGameBoard env with
                             | Throw _ => true | Return _ => false end
                         end) =
                        match Page.me_getGameBoard env with
                        | Throw _ => true | Return _ => false end).
        { destruct kataGoBoard as [kb|]; [| reflexivity]. cbn in Hn. rewrite Hn.
          reflexivity. }
        rewrite Hsame.
        destruct (Page.me_getGameBoard env) as [board | e] eqn:Hd.
        -- rewrite (run_database_board env st g c0 rest Hgame Hidle result kataGoBoard
                      board Hs He Hn Hd). eauto.
        -- rewrite (run_database_rejected env st g c0 rest Hgame Hidle result kataGoBoard
                      e Hs He Hn Hd). eauto.
    + rewrite (run_engine_rejected env st g c0 rest Hgame Hidle result e Hs He). eauto.
  - rewrite (run_submit_rejected env st g c0 rest Hgame Hidle e Hs). eauto.
Qed.

(** X7. A submission that passes the guard rejects exactly when the coordinate
    is empty (the in-flight flags are then never set); otherwise its
    promise resolves, the flags, the ghost stone and the hover preview are
    cleared, the game is kept, and the banner is set when and only when an
    awaited call rejected. *)
Theorem handleMoveSubmit_settles (env : Page.MoveEnv) (coordinate : string)
  (st : Page.State) (g : Game.t) :
  Page.game st = Some g -> Page.isSubmitting st = false ->
  let st' := fst (Page.handleMoveSubmit env coordinate st) in
  (coordinate = "" ->
   Page.handleMoveSubmit env coordinate st =
     (Page.setError None (Page.setPreviewCoord None st), Throw TypeError) /\
   Page.messages st' = Page.messages st /\ Page.isSubmitting st' = false) /\
  (coordinate <> "" ->
   snd (Page.handleMoveSubmit env coordinate st) = Return tt /\
   Page.game st' = Some g /\
   Page.isSubmitting st' = false /\ Page.isThinking st' = false /\
   Page.pendingMove st' = None /\ Page.previewCoord st' = None /\
   Page.error st' =
     (if awaited_call_rejects env then Some "Failed to submit move" else None)).
Proof.
  intros Hgame Hidle. cbv zeta. split.
  - intros ->.
    assert (H : Page.handleMoveSubmit env "" st =
                (Page.setError None (Page.setPreviewCoord None st), Throw TypeError)).
    { unfold Page.handleMoveSubmit. rewrite Hgame, Hidle. reflexivity. }
    rewrite H. split; [reflexivity |]. split; [reflexivity | exact Hidle].
  - intros Hcoord. destruct coordinate as [|c0 rest]; [congruence |].
    destruct (handleMoveSubmit_cases env st g c0 rest Hgame Hidle)
      as (board & msgs & last & ->).
    repeat split; reflexivity.
Qed.

Lemma handleMoveSubmit_settles_witness :
  let env := sample_env (Return sample_reply) None (Throw TypeError) in
  let st' := fst (Page.handleMoveSubmit env "Q16" (sample_state None)) in
  Page.game (sample_state None) = Some sample_game /\
  Page.isSubmitting (sample_state None) = false /\
  snd (Page.handleMoveSubmit env "Q16" (sample_state None)) = Return tt /\
  Page.isSubmitting st' = false /\ Page.isThinking st' = false /\
  Page.error st' = Some "Failed to submit move".
Proof.
  destruct (handleMoveSubmit_settles (sample_env (Return sample_reply) None (Throw TypeError))
              "Q16" (sample_state None) sample_game eq_refl eq_refl) as [_ H].
  assert (Hcoord : "Q16" <> "") by discriminate.
  destruct (H Hcoord) as (Hr & _ & Hs & Ht & _ & _ & He).
  cbv zeta. repeat split; assumption.
Defined.

(** X8. A click on the board never ends in an unhandled rejection. *)
Theorem boardClick_never_rejects (env : Page.MoveEnv) (board_size row col : Z)
  (st : Page.State) :
  snd (Page.boardClick env board_size row col st) = Return tt.
Proof.
  unfold Page.boardClick, GoBoard.handleCellClick.
  destruct (Page.isSubmitting st) eqn:Hidle; [reflexivity |].
  destruct (Page.game st) as [g|] eqn:Hgame.
  - unfold GoBoard.getCoordinate. cbv zeta.
    destruct (handleMoveSubmit_cases env st g
                (if 8 <=? col then JS.fromCharCode (66 + col) else JS.fromCharCode (65 + col))
                (JS.toString (board_size - row)) Hgame Hidle) as (board & msgs & last & ->).
    reflexivity.
  - unfold Page.handleMoveSubmit. rewrite Hgame. reflexivity.
Qed.

(** The run when the move and the board refresh succeed: a board state is
    installed, the engine's or the database's. *)
Lemma run_success (env : Page.MoveEnv) (st : Page.State) (g : Game.t)
  (c0 : ascii) (rest : string) (result : Page.SubmitResult) :
  Page.game st = Some g -> Page.isSubmitting st = false ->
  Page.me_submitMove env = Return result -> awaited_call_rejects env = false ->
  exists board,
            Page.handleMoveSubmit env (String c0 rest) st =
            ({| Page.game := Some g; Page.boardState := Some board;
                Page.messages :=
                  (Page.without (Page.me_now_submit env)
                     (Page.messages st ++
                      [ChatMsg.mk (Page.me_now_submit env) user
                         ("My move: " ++ String c0 rest) (Page.me_date_submit env)]) ++
                   [ChatMsg.mk (Page.me_now_submit env) user
                      ("My move: " ++ String c0 rest) (Page.me_date_user env);
                    ChatMsg.mk (Page.me_now_reply env + 1) assistant
                      (Page.bot_response result) (Page.me_date_reply env)])%list;
                Page.isSubmitting := false; Page.isThinking := false;
                Page.previewCoord := None; Page.error := None;
                Page.pendingMove := None;
                Page.lastMoveCoord :=
                  if truthy (Page.ai_move result) then Page.ai_move result
                  else Some (String c0 rest) |}, Return tt).
Proof.
  intros Hgame Hidle Hs Hok.
  unfold awaited_call_rejects in Hok. rewrite Hs in Hok.
  destruct (Page.me_getKataGoBoardState env) as [kataGoBoard | e] eqn:He;
      [| discriminate Hok].
    destruct kataGoBoard as [kb|].
    - destruct (KataGoBoardState.board kb) as [|r0 rows] eqn:Hb.
      + cbn in Hok. destruct (Page.me_getGameBoard env) as [board | e] eqn:Hd;
          [| discriminate Hok].
        eexists.
        apply (run_database_board env st g c0 rest Hgame Hidle result (Some kb) board
                 Hs He Hb Hd).
      + eexists.
        apply (run_engine_board env st g c0 rest Hgame Hidle result kb Hs He).
        rewrite Hb. discriminate.
    - destruct (Page.me_getGameBoard env) as [board | e] eqn:Hd; [| discriminate Hok].
      eexists.
      apply (run_database_board env st g c0 rest Hgame Hidle result None board
               Hs He I Hd). 
Qed.

(** X9. When the move and the board refresh succeed, the optimistic entry is
    replaced by the confirmed entry with the same id, followed by the bot's
    reply; with a fresh id the earlier entries are all kept, in order.  The
    last-move marker goes to the engine's move, or to the user's own move
    when the reply carries none. *)
Theorem handleMoveSubmit_thread (env : Page.MoveEnv) (coordinate : string)
  (st : Page.State) (g : Game.t) (result : Page.SubmitResult) :
  Page.game st = Some g -> Page.isSubmitting st = false -> coordinate <> "" ->
  Page.me_submitMove env = Return result -> awaited_call_rejects env = false ->
  let userMsgId := Page.me_now_submit env in
  let confirmed :=
    ChatMsg.mk userMsgId user ("My move: " ++ coordinate) (Page.me_date_user env) in
  let reply :=
    ChatMsg.mk (Page.me_now_reply env + 1) assistant (Page.bot_response result)
      (Page.me_date_reply env) in
  let st' := fst (Page.handleMoveSubmit env coordinate st) in
  Page.messages st' = (Page.without userMsgId (Page.messages st) ++ [confirmed; reply])%list /\
  ((forall m, In m (Page.messages st) -> ChatMsg.id m <> userMsgId) ->
   Page.messages st' = (Page.messages st ++ [confirmed; reply])%list) /\
  Page.lastMoveCoord st' =
    (if truthy (Page.ai_move result) then Page.ai_move result else Some coordinate) /\
  Page.error st' = None.
Proof.
  intros Hgame Hidle Hcoord Hs Hok. cbv zeta.
  destruct coordinate as [|c0 rest]; [congruence |].
  destruct (run_success env st g c0 rest result Hgame Hidle Hs Hok) as [board Hrun].
  rewrite Hrun. cbn [fst Page.messages Page.lastMoveCoord Page.error].
  rewrite without_optimistic by reflexivity.
  split; [reflexivity |]. split; [| split; reflexivity].
  intros Hfresh. rewrite without_fresh by exact Hfresh. reflexivity.
Qed.

Lemma handleMoveSubmit_thread_witness :
  let env := sample_env (Return sample_reply) (Some engine_board) (Throw TypeError) in
  let st' := fst (Page.handleMoveSubmit env "Q16" (sample_state None)) in
  awaited_call_rejects env = false /\
  Page.messages st' =
    [ChatMsg.mk 1000 user "My move: Q16" "2025-01-01T00:00:03.000Z";
     ChatMsg.mk 3001 assistant "Too slow." "2025-01-01T00:00:03.000Z"] /\
  Page.lastMoveCoord st' = Some "D4".
Proof.
  assert (Hcoord : "Q16" <> "") by discriminate.
  destruct (handleMoveSubmit_thread
              (sample_env (Return sample_reply) (Some engine_board) (Throw TypeError))
              "Q16" (sample_state None) sample_game sample_reply
              eq_refl eq_refl Hcoord eq_refl eq_refl) as (Hm & _ & Hl & _).
  cbv zeta. split; [reflexivity |]. split; [exact Hm | exact Hl].
Defined.

(** X10. A chat in flight ([isThinking] set, [isSubmitting] clear) neither
    blocks nor alters a move submission: the run is the one of the same
    state with [isThinking] clear. *)
Theorem handleMoveSubmit_ignores_isThinking (env : Page.MoveEnv) (coordinate : string)
  (st : Page.State) (g : Game.t) (thinking : bool) :
  Page.game st = Some g -> Page.isSubmitting st = false -> coordinate <> "" ->
  Page.handleMoveSubmit env coordinate (Page.setIsThinking thinking st) =
  Page.handleMoveSubmit env coordinate st.
Proof.
  intros Hgame Hidle Hcoord.
  destruct coordinate as [|c0 rest]; [congruence |].
  revert Hgame Hidle. destruct st; cbn [Page.game Page.isSubmitting]. intros -> ->.
  unfold Page.handleMoveSubmit. run.
  destruct (Page.me_submitMove env) as [result | e]; run; [| reflexivity].
  destruct (truthy (Page.ai_move result)); run;
    (destruct (Page.me_getKataGoBoardState env) as [[kb|] | e]; run; [| | reflexivity];
     [destruct (0 <? length (KataGoBoardState.board kb))%nat; run; [reflexivity |] |];
     destruct (Page.me_getGameBoard env); reflexivity).
Qed.

Lemma handleMoveSubmit_ignores_isThinking_witness :
  let env := sample_env (Return sample_reply) (Some engine_board) (Throw TypeError) in
  Page.isThinking (Page.setIsThinking true (sample_state None)) = true /\
  (Page.handleMoveSubmit env "Q16" (Page.setIsThinking true (sample_state None)) =
   Page.handleMoveSubmit env "Q16" (sample_state None)).
Proof.
  assert (Hcoord : "Q16" <> "") by discriminate.
  cbv zeta. split; [reflexivity |].
  exact (handleMoveSubmit_ignores_isThinking
           (sample_env (Return sample_reply) (Some engine_board) (Throw TypeError))
           "Q16" (sample_state None) sample_game true eq_refl eq_refl Hcoord).
Defined.

(** ** The board: coordinates, labels, markers *)

Section BoardCoordinates.

Lemma upper_code_fromCharCode (n : Z) :
  65 <= n <= 90 -> JS.upper_code (JS.fromCharCode n) = n.
Proof.
  intros Hn. rewrite upper_code_capital; rewrite code_fromCharCode; lia.
Qed.



Lemma lookup_map {A B} (f : A -> B) (l : list A) (i : nat) :
  map f l !! i = f <$> (l !! i).
Proof.
  revert i. induction l as [|a l IH]; intros [|i]; cbn; try reflexivity. apply IH.
Qed.

Lemma lookup_count_down (n i : nat) :
  (i < n)%nat -> GoBoard.count_down n !! i = Some (Z.of_nat (n - i)).
Proof.
  revert i. induction n as [|n IH]; intros i Hi; [lia |].
  destruct i as [|i].
  - reflexivity.
  - cbn [GoBoard.count_down]. change ((?x :: ?l) !! S i) with (l !! i).
    rewrite IH by lia. reflexivity.
Qed.

Lemma length_count_down (n : nat) : length (GoBoard.count_down n) = n.
Proof. induction n as [|n IH]; cbn; [reflexivity | f_equal; exact IH]. Qed.

End BoardCoordinates.

(** X11. The page controller's parser inverts the renderer's formatter up to
    the board sizes the two components hold: a click on (row, col) of a
    board drawn with [size] lines gives the pending ghost stone the column
    [col] and the row [row + (gameSize - size)], which is [row] when the
    Game's board size is the drawn one. *)
Theorem page_parse_of_getCoordinate (size gameSize row col : Z) :
  0 <= col <= 24 ->
  Page.parseCoordinate (GoBoard.getCoordinate size row col) gameSize =
    Return (Some (row + (gameSize - size)), col) /\
  (gameSize = size ->
   Page.parseCoordinate (GoBoard.getCoordinate size row col) gameSize =
     Return (Some row, col)).
Proof.
  intros Hc.
  assert (H : Page.parseCoordinate (GoBoard.getCoordinate size row col) gameSize =
              Return (Some (row + (gameSize - size)), col)).
  { unfold GoBoard.getCoordinate. cbv zeta. rewrite page_parse_letter_number.
    replace (gameSize - (size - row)) with (row + (gameSize - size)) by lia.
    destruct (Z.leb_spec 8 col).
    - rewrite upper_code_fromCharCode by lia.
      destruct (Z.leb_spec 8 (66 + col - 65)); [| lia].
      do 3 f_equal. lia.
    - rewrite upper_code_fromCharCode by lia.
      destruct (Z.leb_spec 8 (65 + col - 65)); [lia |].
      do 3 f_equal. lia. }
  split; [exact H |]. intros ->. rewrite H. do 3 f_equal. lia.
Qed.

Lemma page_parse_of_getCoordinate_witness :
  0 <= 15 <= 24 /\
  Page.parseCoordinate (GoBoard.getCoordinate 19 3 15) 19 = Return (Some 3, 15) /\
  Page.parseCoordinate (GoBoard.getCoordinate 9 3 4) 19 = Return (Some (3 + (19 - 9)), 4).
Proof.
  assert (H1 : 0 <= 15 <= 24) by lia.
  assert (H2 : 0 <= 4 <= 24) by lia.
  destruct (page_parse_of_getCoordinate 19 19 3 15 H1) as [_ Ha].
  destruct (page_parse_of_getCoordinate 9 19 3 4 H2) as [Hb _].
  split; [exact H1 |]. split; [exact (Ha eq_refl) | exact Hb].
Defined.



(** X13. The labels around the board are the coordinates: there are
    [board_size] column labels and [board_size] row labels, and the
    coordinate of the intersection (row, col) is the label of column [col]
    followed by the label of row [row]. *)
Theorem labels_spell_coordinates (board_size row col : Z) :
  0 <= row < board_size -> 0 <= col < board_size ->
  length (GoBoard.colLabels board_size) = Z.to_nat board_size /\
  length (GoBoard.rowLabels board_size) = Z.to_nat board_size /\
  exists letter number,
    GoBoard.colLabels board_size !! Z.to_nat col = Some letter /\
    GoBoard.rowLabels board_size !! Z.to_nat row = Some number /\
    GoBoard.getCoordinate board_size row col = letter ++ number.
Proof.
  intros Hr Hc. unfold GoBoard.colLabels, GoBoard.rowLabels.
  split; [rewrite length_map, length_seq; reflexivity |].
  split; [rewrite length_map, length_count_down; reflexivity |].
  eexists. eexists.
  rewrite !lookup_map, lookup_count_down by lia.
  rewrite lookup_seq_lt by lia.
  cbn [fmap option_fmap option_map].
  split; [reflexivity |]. split; [reflexivity |].
  unfold GoBoard.getCoordinate. cbv zeta. cbn [Nat.add].
  rewrite Z2Nat.id by lia.
  replace (Z.of_nat (Z.to_nat board_size - Z.to_nat row)) with (board_size - row) by lia.
  reflexivity.
Qed.

Lemma labels_spell_coordinates_witness :
  0 <= 3 < 19 /\ 0 <= 15 < 19 /\
  GoBoard.colLabels 19 !! 15%nat = Some "Q" /\ GoBoard.rowLabels 19 !! 3%nat = Some "16" /\
  GoBoard.getCoordinate 19 3 15 = "Q" ++ "16".
Proof.
  assert (Hr : 0 <= 3 < 19) by lia.
  assert (Hc : 0 <= 15 < 19) by lia.
  destruct (labels_spell_coordinates 19 3 15 Hr Hc) as (_ & _ & letter & number & Hl & Hn & E).
  split; [exact Hr |]. split; [exact Hc |].
  repeat split; reflexivity.
Defined.

(** The renderer's parser at one board size on a coordinate formatted at
    another: the column is kept, the row is counted from the bottom line. *)
Lemma renderer_parse_at_size (size size' row col : Z) :
  0 <= col <= 24 ->
  GoBoard.parseCoordinate size' (GoBoard.getCoordinate size row col) =
  if on_board size' (row + (size' - size)) col then Some (row + (size' - size), col)
  else None.
Proof.
  intros Hc. unfold GoBoard.getCoordinate. cbv zeta.
  rewrite renderer_parse_letter_number. cbv zeta.
  replace (size' - (size - row)) with (row + (size' - size)) by lia.
  destruct (Z.leb_spec 8 col) as [H8 | H8];
    rewrite upper_code_capital; rewrite code_fromCharCode; try lia.
  - destruct (Z.ltb_spec 73 (66 + col)); [| lia].
    replace (66 + col - 66) with col by lia. reflexivity.
  - destruct (Z.ltb_spec 73 (65 + col)); [lia |].
    replace (65 + col - 65) with col by lia. reflexivity.
Qed.

(** X14. The last-move ring after a click.  The board is drawn from the
    page's board state, of [size] lines (at most 25); a click on its
    intersection (row, col) whose submission and board refresh succeed
    installs a board state, and the ring is computed at the size of that
    refreshed board.  When the engine answers without a move of its own (a
    pass, or the end of the game), the ring is at the clicked column and at
    the row with the clicked number, (row + (size' - size), col), provided
    that intersection exists on the refreshed board, and is not drawn
    otherwise; so it is at the clicked intersection when the size has not
    changed.  When the engine answers with a move, the ring is where the
    renderer's parser puts that move on the refreshed board. *)
Theorem last_move_marker_after_click (env : Page.MoveEnv) (size row col : Z)
  (st : Page.State) (g : Game.t) (b : BoardState.t) (result : Page.SubmitResult) :
  Page.game st = Some g -> Page.boardState st = Some b -> BoardState.board_size b = size ->
  Page.isSubmitting st = false ->
  size <= 25 -> 0 <= row < size -> 0 <= col < size ->
  Page.me_submitMove env = Return result -> awaited_call_rejects env = false ->
  let st' := fst (Page.boardClick env (BoardState.board_size b) row col st) in
  exists b', Page.boardState st' = Some b' /\
    let size' := BoardState.board_size b' in
    (truthy (Page.ai_move result) = false ->
     GoBoard.lastMovePos size' (Page.lastMoveCoord st') =
       (if on_board size' (row + (size' - size)) col
        then Some (row + (size' - size), col) else None)) /\
    (truthy (Page.ai_move result) = false -> size' = size ->
     GoBoard.lastMovePos size' (Page.lastMoveCoord st') = Some (row, col)) /\
    (truthy (Page.ai_move result) = true ->
     exists coord, Page.ai_move result = Some coord /\
       GoBoard.lastMovePos size' (Page.lastMoveCoord st') =
         GoBoard.parseCoordinate size' coord).
Proof.
  intros Hgame Hboard Hsize Hidle Hs25 Hr Hc Hs Hok. cbv zeta. rewrite Hsize.
  unfold Page.boardClick, GoBoard.handleCellClick. rewrite Hidle.
  assert (Hcoord : exists c0 rest, GoBoard.getCoordinate size row col = String c0 rest)
    by (unfold GoBoard.getCoordinate; eauto).
  destruct Hcoord as (c0 & rest & Hcoord).
  assert (Hparse : forall size',
            GoBoard.parseCoordinate size' (String c0 rest) =
            if on_board size' (row + (size' - size)) col
            then Some (row + (size' - size), col) else None).
  { intros size'. rewrite <- Hcoord. apply renderer_parse_at_size. lia. }
  rewrite Hcoord.
  destruct (run_success env st g c0 rest result Hgame Hidle Hs Hok) as [b' ->].
  exists b'. cbn [fst Page.lastMoveCoord Page.boardState].
  split; [reflexivity |]. split; [| split].
  - intros ->. unfold GoBoard.lastMovePos. cbn [truthy truthy_string]. cbv iota.
    apply Hparse.
  - intros -> E. unfold GoBoard.lastMovePos. cbn [truthy truthy_string]. cbv iota.
    rewrite Hparse, E. replace (row + (size - size)) with row by lia.
    unfold on_board.
    destruct (Z.leb_spec 0 row), (Z.ltb_spec row size), (Z.leb_spec 0 col),
      (Z.ltb_spec col size); try lia. reflexivity.
  - intros Ht. rewrite Ht.
    destruct (Page.ai_move result) as [[|c r] |]; try discriminate Ht.
    eexists. split; reflexivity.
Qed.

Lemma last_move_marker_after_click_witness :
  let same := sample_env (Return pass_reply) (Some engine_board) (Throw TypeError) in
  let smaller := sample_env (Return pass_reply) (Some small_engine_board) (Throw TypeError) in
  let ring env :=
    let st' := fst (Page.boardClick env 19 3 15 idle_state) in
    match Page.boardState st' with
    | Some b' => GoBoard.lastMovePos (BoardState.board_size b') (Page.lastMoveCoord st')
    | None => None
    end in
  19 <= 25 /\ 0 <= 3 < 19 /\ 0 <= 15 < 19 /\
  awaited_call_rejects same = false /\ awaited_call_rejects smaller = false /\
  ring same = Some (3, 15) /\ ring smaller = None.
Proof.
  cbv zeta.
  assert (H1 : 19 <= 25) by lia.
  assert (H2 : 0 <= 3 < 19) by lia.
  assert (H3 : 0 <= 15 < 19) by lia.
  split; [exact H1 |]. split; [exact H2 |]. split; [exact H3 |].
  split; [reflexivity |]. split; [reflexivity |].
  split.
  - destruct (last_move_marker_after_click
                (sample_env (Return pass_reply) (Some engine_board) (Throw TypeError))
                19 3 15 idle_state sample_game (sample_board 6.5%float) pass_reply
                eq_refl eq_refl eq_refl eq_refl H1 H2 H3 eq_refl eq_refl)
      as (b' & Hb & _ & Hsame & _).
    cbv zeta in Hb, Hsame.
    change (BoardState.board_size (sample_board 6.5%float)) with 19 in Hb, Hsame.
    rewrite Hb. apply Hsame; [reflexivity |].
    assert (E : Page.boardState
                  (fst (Page.boardClick
                          (sample_env (Return pass_reply) (Some engine_board) (Throw TypeError))
                          19 3 15 idle_state)) =
                Page.engineBoardUpdate sample_game engine_board (Page.boardState idle_state))
      by (vm_compute; reflexivity).
    rewrite E in Hb. injection Hb as <-. reflexivity.
  - destruct (last_move_marker_after_click
                (sample_env (Return pass_reply) (Some small_engine_board) (Throw TypeError))
                19 3 15 idle_state sample_game (sample_board 6.5%float) pass_reply
                eq_refl eq_refl eq_refl eq_refl H1 H2 H3 eq_refl eq_refl)
      as (b' & Hb & Hpass & _).
    cbv zeta in Hb, Hpass.
    change (BoardState.board_size (sample_board 6.5%float)) with 19 in Hb, Hpass.
    rewrite Hb. rewrite (Hpass eq_refl).
    assert (E : Page.boardState
                  (fst (Page.boardClick
                          (sample_env (Return pass_reply) (Some small_engine_board)
                             (Throw TypeError))
                          19 3 15 idle_state)) =
                Page.engineBoardUpdate sample_game small_engine_board
                  (Page.boardState idle_state))
      by (vm_compute; reflexivity).
    rewrite E in Hb. injection Hb as <-. reflexivity.
Defined.

(** ** Star points on every board size *)

Section StarShape.

(** The three boards with star points, cell by cell. *)
Lemma stars_of_19 :
  exists stars, GoBoard.renderStarPoints 19 = Return stars /\
    length stars = 19%nat /\ Forall (fun row => length row = 19%nat) stars /\
    forall r c, GoBoard.is_star stars r c = true <->
      In (r, c) [(3, 3); (3, 9); (3, 15); (9, 3); (9, 9); (9, 15);
                 (15, 3); (15, 9); (15, 15)]%nat.
Proof.
  eexists. split; [vm_compute; reflexivity |].
  match goal with |- length ?s = _ /\ _ =>
    assert (Hsq : length s = 19%nat /\ Forall (fun row => length row = 19%nat) s)
      by square_array
  end.
  destruct Hsq as [Hlen Hrows]. split; [exact Hlen |]. split; [exact Hrows |].
  intros r c. rewrite (is_star_iff_drawn 19 _ r c Hlen Hrows). reflexivity.
Qed.

Lemma stars_of_13 :
  exists stars, GoBoard.renderStarPoints 13 = Return stars /\
    length stars = 13%nat /\ Forall (fun row => length row = 13%nat) stars /\
    forall r c, GoBoard.is_star stars r c = true <->
      In (r, c) [(3, 3); (3, 9); (9, 3); (9, 9)]%nat.
Proof.
  eexists. split; [vm_compute; reflexivity |].
  match goal with |- length ?s = _ /\ _ =>
    assert (Hsq : length s = 13%nat /\ Forall (fun row => length row = 13%nat) s)
      by square_array
  end.
  destruct Hsq as [Hlen Hrows]. split; [exact Hlen |]. split; [exact Hrows |].
  intros r c. rewrite (is_star_iff_drawn 13 _ r c Hlen Hrows). reflexivity.
Qed.

Lemma stars_of_9 :
  exists stars, GoBoard.renderStarPoints 9 = Return stars /\
    length stars = 9%nat /\ Forall (fun row => length row = 9%nat) stars /\
    forall r c, GoBoard.is_star stars r c = true <->
      In (r, c) [(2, 2); (2, 6); (4, 4); (6, 2); (6, 6)]%nat.
Proof.
  eexists. split; [vm_compute; reflexivity |].
  match goal with |- length ?s = _ /\ _ =>
    assert (Hsq : length s = 9%nat /\ Forall (fun row => length row = 9%nat) s)
      by square_array
  end.
  destruct Hsq as [Hlen Hrows]. split; [exact Hlen |]. split; [exact Hrows |].
  intros r c. rewrite (is_star_iff_drawn 9 _ r c Hlen Hrows). reflexivity.
Qed.

(** Any other admissible size gives the blank array. *)
Lemma stars_of_other (size : Z) :
  0 <= size <= 4294967295 -> size <> 9 -> size <> 13 -> size <> 19 ->
  GoBoard.renderStarPoints size =
  Return (replicate (Z.to_nat size) (replicate (Z.to_nat size) false)).
Proof.
  intros Hs H9 H13 H19. unfold GoBoard.renderStarPoints.
  destruct (Z.ltb_spec size 0); [lia |].
  destruct (Z.ltb_spec 4294967295 size); [lia |]. cbn [orb]. cbv zeta.
  destruct (Z.eqb_spec size 19); [lia |].
  destruct (Z.eqb_spec size 13); [lia |].
  destruct (Z.eqb_spec size 9); [lia |]. reflexivity.
Qed.

Lemma is_star_blank (n r c : nat) :
  GoBoard.is_star (replicate n (replicate n false)) r c = false.
Proof.
  unfold GoBoard.is_star.
  destruct (replicate n (replicate n false) !! r) as [row|] eqn:Er; [| reflexivity].
  apply lookup_replicate in Er as [-> _].
  destruct (replicate n false !! c) as [v|] eqn:Ec; [| reflexivity].
  apply lookup_replicate in Ec as [-> _]. reflexivity.
Qed.

End StarShape.

Ltac star_cases H :=
  cbn [In] in H;
  repeat match type of H with
         | _ \/ _ => destruct H as [H | H]
         | False => destruct H
         | (_, _) = (_, _) => injection H as ? ?
         end.

(** X15. [renderStarPoints] throws only for a size no array can have; for every
    other size it returns a square array of that size, blank unless the
    size is 9, 13 or 19, and every star point is at least two lines away
    from each edge. *)
Theorem renderStarPoints_shape (size : Z) :
  (size < 0 \/ 4294967295 < size -> GoBoard.renderStarPoints size = Throw RangeError) /\
  (0 <= size <= 4294967295 ->
   exists stars, GoBoard.renderStarPoints size = Return stars /\
     length stars = Z.to_nat size /\
     Forall (fun row => length row = Z.to_nat size) stars /\
     (size <> 9 -> size <> 13 -> size <> 19 ->
      forall r c, GoBoard.is_star stars r c = false) /\
     (forall r c, GoBoard.is_star stars r c = true ->
        (2 <= r /\ r + 3 <= Z.to_nat size /\ 2 <= c /\ c + 3 <= Z.to_nat size)%nat)).
Proof.
  split.
  - intros Hs. unfold GoBoard.renderStarPoints.
    destruct (Z.ltb_spec size 0); [reflexivity |].
    destruct (Z.ltb_spec 4294967295 size); [reflexivity | lia].
  - intros Hs.
    destruct (Z.eq_dec size 19) as [-> | H19];
      [| destruct (Z.eq_dec size 13) as [-> | H13];
         [| destruct (Z.eq_dec size 9) as [-> | H9]]].
    + destruct stars_of_19 as (stars & Hr & Hlen & Hrows & Hcells).
      exists stars. split; [exact Hr |]. split; [exact Hlen |]. split; [exact Hrows |].
      split; [intros; lia |]. intros r c E. apply Hcells in E.
      star_cases E; subst; cbn; lia.
    + destruct stars_of_13 as (stars & Hr & Hlen & Hrows & Hcells).
      exists stars. split; [exact Hr |]. split; [exact Hlen |]. split; [exact Hrows |].
      split; [intros; lia |]. intros r c E. apply Hcells in E.
      star_cases E; subst; cbn; lia.
    + destruct stars_of_9 as (stars & Hr & Hlen & Hrows & Hcells).
      exists stars. split; [exact Hr |]. split; [exact Hlen |]. split; [exact Hrows |].
      split; [intros; lia |]. intros r c E. apply Hcells in E.
      star_cases E; subst; cbn; lia.
    + eexists. split; [apply stars_of_other; assumption |].
      split; [apply length_replicate |].
      split; [apply Forall_replicate, length_replicate |].
      split; [intros _ _ _ r c; apply is_star_blank |].
      intros r c E. rewrite is_star_blank in E. discriminate E.
Qed.

Lemma renderStarPoints_shape_witness :
  0 <= 7 <= 4294967295 /\
  (exists stars, GoBoard.renderStarPoints 7 = Return stars /\ length stars = 7%nat /\
     forall r c, GoBoard.is_star stars r c = false) /\
  GoBoard.renderStarPoints (-3) = Throw RangeError.
Proof.
  assert (H7 : 0 <= 7 <= 4294967295) by lia.
  destruct (renderStarPoints_shape 7) as [_ H].
  destruct (H H7) as (stars & Hr & Hlen & _ & Hblank & _).
  destruct (renderStarPoints_shape (-3)) as [Hneg _].
  split; [exact H7 |]. split.
  - exists stars. split; [exact Hr |]. split; [exact Hlen |].
    apply Hblank; discriminate.
  - apply Hneg. left. lia.
Defined.

(** X16. The star-point pattern is symmetric on every board: mirroring in the
    main diagonal and turning the board by 180 degrees map star points to
    star points. *)
Theorem star_points_symmetric (size : Z) (stars : list (list bool)) (r c : nat) :
  GoBoard.renderStarPoints size = Return stars ->
  GoBoard.is_star stars r c = GoBoard.is_star stars c r /\
  ((r < Z.to_nat size)%nat -> (c < Z.to_nat size)%nat ->
   GoBoard.is_star stars (Z.to_nat size - 1 - r) (Z.to_nat size - 1 - c) =
   GoBoard.is_star stars r c).
Proof.
  intros Hrender.
  assert (Hrange : 0 <= size <= 4294967295).
  { unfold GoBoard.renderStarPoints in Hrender.
    destruct (Z.ltb_spec size 0); [discriminate Hrender |].
    destruct (Z.ltb_spec 4294967295 size); [discriminate Hrender | lia]. }
  assert (Hbool : forall a b : bool, (a = true <-> b = true) -> a = b).
  { intros [|] [|] [H1 H2]; try reflexivity; [symmetry; auto | auto]. }
  destruct (Z.eq_dec size 19) as [-> | H19];
    [| destruct (Z.eq_dec size 13) as [-> | H13];
       [| destruct (Z.eq_dec size 9) as [-> | H9]]].
  - destruct stars_of_19 as (stars' & Hr & _ & _ & Hcells).
    rewrite Hr in Hrender. injection Hrender as <-.
    split; [| intros Hlr Hlc]; apply Hbool; rewrite !Hcells;
      (split; intros H; star_cases H;
       try (assert (r = 3 \/ r = 9 \/ r = 15)%nat as Er by lia;
            assert (c = 3 \/ c = 9 \/ c = 15)%nat as Ec by lia;
            destruct Er as [-> | [-> | ->]], Ec as [-> | [-> | ->]]);
       subst; first [cbn; tauto | exfalso; cbn in *; lia]).
  - destruct stars_of_13 as (stars' & Hr & _ & _ & Hcells).
    rewrite Hr in Hrender. injection Hrender as <-.
    split; [| intros Hlr Hlc]; apply Hbool; rewrite !Hcells;
      (split; intros H; star_cases H;
       try (assert (r = 3 \/ r = 9)%nat as Er by lia;
            assert (c = 3 \/ c = 9)%nat as Ec by lia;
            destruct Er as [-> | ->], Ec as [-> | ->]);
       subst; first [cbn; tauto | exfalso; cbn in *; lia]).
  - destruct stars_of_9 as (stars' & Hr & _ & _ & Hcells).
    rewrite Hr in Hrender. injection Hrender as <-.
    split; [| intros Hlr Hlc]; apply Hbool; rewrite !Hcells;
      (split; intros H; star_cases H;
       try (assert (r = 2 \/ r = 4 \/ r = 6)%nat as Er by lia;
            assert (c = 2 \/ c = 4 \/ c = 6)%nat as Ec by lia;
            destruct Er as [-> | [-> | ->]], Ec as [-> | [-> | ->]]);
       subst; first [cbn; tauto | exfalso; cbn in *; lia]).
  - rewrite stars_of_other in Hrender by assumption. injection Hrender as <-.
    rewrite !is_star_blank. split; reflexivity.
Qed.

Lemma star_points_symmetric_witness :
  exists stars, GoBoard.renderStarPoints 9 = Return stars /\
    GoBoard.is_star stars 2 6 = GoBoard.is_star stars 6 2 /\
    GoBoard.is_star stars (9 - 1 - 2) (9 - 1 - 2) = GoBoard.is_star stars 2 2.
Proof.
  destruct stars_of_9 as (stars & Hr & _).
  exists stars. split; [exact Hr |].
  destruct (star_points_symmetric 9 stars 2 6 Hr) as [Ht _].
  destruct (star_points_symmetric 9 stars 2 2 Hr) as [_ Hrot].
  split; [exact Ht |]. apply Hrot; cbn; lia.
Defined.

(** ** Sending a chat message *)


(** X17. The chat handler is a no-op without a game and while a move or another
    chat message is in flight: the state is unchanged and nothing is
    sent. *)
Theorem handleChatMessage_guard (env : Page.ChatEnv) (content : string) (st : Page.State) :
  Page.game st = None \/ Page.isSubmitting st = true \/ Page.isThinking st = true ->
  Page.handleChatMessage env content st = (st, Return tt).
Proof.
  intros H. unfold Page.handleChatMessage.
  destruct (Page.game st); [| reflexivity].
  destruct H as [H | [H | H]]; [discriminate H | rewrite H; reflexivity |].
  rewrite H, orb_true_r. reflexivity.
Qed.

Lemma handleChatMessage_guard_witness :
  Page.isSubmitting busy_state = true /\
  Page.handleChatMessage (chat_env (Return (chat_reply None)) None (Throw TypeError))
    "hello" busy_state = (busy_state, Return tt).
Proof.
  split; [reflexivity |].
  apply handleChatMessage_guard. right. left. reflexivity.
Defined.



(** X19. When the chat send and the board refresh succeed, the optimistic
    entry is replaced by the confirmed entry with the same id and content,
    followed by the bot's reply, whose text is the reply's content or
    three dots when the reply carries no bot message; with a fresh id the
    earlier entries are all kept. *)
Theorem handleChatMessage_thread (env : Page.ChatEnv) (content : string)
  (st : Page.State) (g : Game.t) (result : Page.ChatResult) :
  Page.game st = Some g -> Page.isSubmitting st = false -> Page.isThinking st = false ->
  Page.ce_sendChatMessage env = Return result -> chat_call_rejects env = false ->
  let userMsgId := Page.ce_now_send env in
  let confirmed := ChatMsg.mk userMsgId user content (Page.ce_date_user env) in
  let reply :=
    ChatMsg.mk (Page.ce_now_reply env + 1) assistant
      (match Page.bot_message result with Some m => ChatMsg.content m | None => "..." end)
      (Page.ce_date_reply env) in
  let st' := fst (Page.handleChatMessage env content st) in
  Page.messages st' = (Page.without userMsgId (Page.messages st) ++ [confirmed; reply])%list /\
  ((forall m, In m (Page.messages st) -> ChatMsg.id m <> userMsgId) ->
   Page.messages st' = (Page.messages st ++ [confirmed; reply])%list) /\
  Page.error st' = None.
Proof.
  intros Hgame Hsub Hthink Hs Hok. cbv zeta.
  assert (Hmsgs : Page.messages (fst (Page.handleChatMessage env content st)) =
            (Page.without (Page.ce_now_send env)
               (Page.messages st ++
                [ChatMsg.mk (Page.ce_now_send env) user content (Page.ce_date_send env)]) ++
             [ChatMsg.mk (Page.ce_now_send env) user content (Page.ce_date_user env);
              ChatMsg.mk (Page.ce_now_reply env + 1) assistant
                (match Page.bot_message result with
                 | Some m => ChatMsg.content m | None => "..." end)
                (Page.ce_date_reply env)])%list /\
            Page.error (fst (Page.handleChatMessage env content st)) = None).
  { unfold chat_call_rejects in Hok. revert Hgame Hsub Hthink Hs Hok.
    destruct st; cbn [Page.game Page.isSubmitting Page.isThinking Page.messages].
    intros -> -> -> Hs Hok. unfold Page.handleChatMessage. run.
    rewrite Hs in *. run. unfold Page.botContent.
    destruct (Page.ce_getKataGoBoardState env) as [[kb|] | e]; run;
      [| | discriminate Hok].
    - destruct (0 <? length (KataGoBoardState.board kb))%nat; run;
        [split; reflexivity |].
      destruct (Page.ce_getGameBoard env); run; [split; reflexivity | discriminate Hok].
    - destruct (Page.ce_getGameBoard env); run; [split; reflexivity | discriminate Hok]. }
  destruct Hmsgs as [-> ->].
  rewrite without_optimistic by reflexivity.
  split; [reflexivity |]. split; [| reflexivity].
  intros Hfresh. rewrite without_fresh by exact Hfresh. reflexivity.
Qed.

Lemma handleChatMessage_thread_witness :
  let env := chat_env (Return (chat_reply None)) (Some engine_board) (Throw TypeError) in
  let st' := fst (Page.handleChatMessage env "hello" (sample_state None)) in
  chat_call_rejects env = false /\
  Page.messages st' =
    [ChatMsg.mk 2000 user "hello" "2025-01-01T00:00:04.000Z";
     ChatMsg.mk 4001 assistant "..." "2025-01-01T00:00:04.000Z"].
Proof.
  destruct (handleChatMessage_thread
              (chat_env (Return (chat_reply None)) (Some engine_board) (Throw TypeError))
              "hello" (sample_state None) sample_game (chat_reply None)
              eq_refl eq_refl eq_refl eq_refl eq_refl) as (Hm & _).
  cbv zeta. split; [reflexivity | exact Hm].
Defined.

(** X20. When an awaited call of the chat send rejects, no entry keeps the
    optimistic entry's id; when it is [sendChatMessage] that rejects, the
    list is the earlier one without that id (the earlier one itself for a
    fresh id) and the board state is untouched. *)
Theorem handleChatMessage_rolls_back (env : Page.ChatEnv) (content : string)
  (st : Page.State) (g : Game.t) :
  Page.game st = Some g -> Page.isSubmitting st = false -> Page.isThinking st = false ->
  chat_call_rejects env = true ->
  let userMsgId := Page.ce_now_send env in
  let st' := fst (Page.handleChatMessage env content st) in
  (forall m, In m (Page.messages st') -> ChatMsg.id m <> userMsgId) /\
  Page.boardState st' = Page.boardState st /\
  (forall e, Page.ce_sendChatMessage env = Throw e ->
     Page.messages st' = Page.without userMsgId (Page.messages st) /\
     ((forall m, In m (Page.messages st) -> ChatMsg.id m <> userMsgId) ->
      Page.messages st' = Page.messages st)).
Proof.
  intros Hgame Hsub Hthink Hrej. cbv zeta.
  assert (H : exists msgs,
            Page.messages (fst (Page.handleChatMessage env content st)) =
              Page.without (Page.ce_now_send env) msgs /\
            Page.boardState (fst (Page.handleChatMessage env content st)) =
              Page.boardState st /\
            (forall e, Page.ce_sendChatMessage env = Throw e ->
               msgs = (Page.messages st ++
                       [ChatMsg.mk (Page.ce_now_send env) user content
                          (Page.ce_date_send env)])%list)).
  { unfold chat_call_rejects in Hrej. revert Hgame Hsub Hthink Hrej.
    destruct st; cbn [Page.game Page.isSubmitting Page.isThinking Page.messages
      Page.boardState].
    intros -> -> -> Hrej. unfold Page.handleChatMessage. run.
    destruct (Page.ce_sendChatMessage env) as [result | e]; run.
    - destruct (Page.ce_getKataGoBoardState env) as [[kb|] | e]; run.
      + destruct (0 <? length (KataGoBoardState.board kb))%nat; run;
          [discriminate Hrej |].
        destruct (Page.ce_getGameBoard env); run; [discriminate Hrej |].
        eexists. split; [reflexivity |]. split; [reflexivity |]. intros e' E.
        discriminate E.
      + destruct (Page.ce_getGameBoard env); run; [discriminate Hrej |].
        eexists. split; [reflexivity |]. split; [reflexivity |]. intros e' E.
        discriminate E.
      + eexists. split; [reflexivity |]. split; [reflexivity |]. intros e' E.
        discriminate E.
    - eexists. split; [reflexivity |]. split; [reflexivity |]. intros e' _. reflexivity. }
  destruct H as (msgs & Hm & Hb & Hsend). rewrite Hm, Hb.
  split; [intros m; apply without_id |]. split; [reflexivity |].
  intros e He. rewrite (Hsend e He), without_optimistic by reflexivity.
  split; [reflexivity | apply without_fresh].
Qed.

Lemma handleChatMessage_rolls_back_witness :
  let env := chat_env (Throw TypeError) None (Throw TypeError) in
  let st' := fst (Page.handleChatMessage env "hello" idle_state) in
  chat_call_rejects env = true /\ Page.messages st' = Page.messages idle_state /\
  Page.boardState st' = Page.boardState idle_state.
Proof.
  assert (Hfresh : forall m, In m (Page.messages idle_state) -> ChatMsg.id m <> 2000).
  { intros m [<- | []]. discriminate. }
  destruct (handleChatMessage_rolls_back (chat_env (Throw TypeError) None (Throw TypeError))
              "hello" idle_state sample_game eq_refl eq_refl eq_refl eq_refl)
    as (_ & Hb & Hsend).
  destruct (Hsend TypeError eq_refl) as [_ Hm].
  cbv zeta. split; [reflexivity |]. split; [exact (Hm Hfresh) | exact Hb].
Defined.

(** X21. The chat handler refreshes the board exactly as the move handler does:
    with the same answers of the engine status fetch and of the database
    fetch, a successful chat send and a successful move submission leave
    the same board state. *)
Theorem chat_and_move_refresh_alike (menv : Page.MoveEnv) (cenv : Page.ChatEnv)
  (coordinate content : string) (st : Page.State) (g : Game.t)
  (moved : Page.SubmitResult) (sent : Page.ChatResult) :
  Page.game st = Some g -> Page.isSubmitting st = false -> Page.isThinking st = false ->
  coordinate <> "" ->
  Page.me_submitMove menv = Return moved -> Page.ce_sendChatMessage cenv = Return sent ->
  Page.me_getKataGoBoardState menv = Page.ce_getKataGoBoardState cenv ->
  Page.me_getGameBoard menv = Page.ce_getGameBoard cenv ->
  Page.boardState (fst (Page.handleMoveSubmit menv coordinate st)) =
  Page.boardState (fst (Page.handleChatMessage cenv content st)).
Proof.
  intros Hgame Hsub Hthink Hcoord Hm Hc He Hd.
  destruct coordinate as [|c0 rest]; [congruence |].
  revert Hgame Hsub Hthink. destruct st; cbn [Page.game Page.isSubmitting Page.isThinking].
  intros -> -> ->.
  unfold Page.handleMoveSubmit, Page.handleChatMessage. run.
  rewrite Hm, Hc, He, Hd. run.
  destruct (truthy (Page.ai_move moved)); run;
    (destruct (Page.ce_getKataGoBoardState cenv) as [[kb|] | e]; run; [| | reflexivity];
     [destruct (0 <? length (KataGoBoardState.board kb))%nat; run; [reflexivity |] |];
     destruct (Page.ce_getGameBoard cenv); reflexivity).
Qed.

Lemma chat_and_move_refresh_alike_witness :
  let menv := sample_env (Return sample_reply) (Some engine_board) (Throw TypeError) in
  let cenv := chat_env (Return (chat_reply None)) (Some engine_board) (Throw TypeError) in
  "Q16" <> "" /\
  Page.boardState (fst (Page.handleMoveSubmit menv "Q16" (sample_state None))) =
  Page.boardState (fst (Page.handleChatMessage cenv "hello" (sample_state None))).
Proof.
  assert (Hcoord : "Q16" <> "") by discriminate.
  cbv zeta. split; [exact Hcoord |].
  exact (chat_and_move_refresh_alike
           (sample_env (Return sample_reply) (Some engine_board) (Throw TypeError))
           (chat_env (Return (chat_reply None)) (Some engine_board) (Throw TypeError))
           "Q16" "hello" (sample_state None) sample_game sample_reply (chat_reply None)
           eq_refl eq_refl eq_refl Hcoord eq_refl eq_refl eq_refl eq_refl).
Defined.

(** ** Chat panel *)

Section ChatPanel.

Lemma trim_start_empty (s : string) : JS.trim_start s = "" <-> all_space s = true.
Proof.
  induction s as [|c r IH]; cbn [JS.trim_start all_space]; [tauto |].
  destruct (JS.is_space c); cbn [andb]; [exact IH |].
  split; discriminate.
Qed.

Lemma trim_end_empty (s : string) : JS.trim_end s = "" <-> all_space s = true.
Proof.
  induction s as [|c r IH]; cbn [JS.trim_end all_space]; [tauto |].
  destruct (JS.trim_end r) as [|c' r'] eqn:E.
  - destruct IH as [IH _]. rewrite (IH eq_refl), andb_true_r.
    destruct (JS.is_space c); split; (reflexivity || discriminate).
  - split; [discriminate |]. intros H. apply andb_prop in H as [_ H].
    apply IH in H. discriminate H.
Qed.

Lemma all_space_trim_start (s : string) : all_space (JS.trim_start s) = all_space s.
Proof.
  induction s as [|c r IH]; cbn [JS.trim_start all_space]; [reflexivity |].
  destruct (JS.is_space c) eqn:E; cbn [andb all_space]; [exact IH |].
  rewrite E. reflexivity.
Qed.

Lemma trim_empty (s : string) : JS.trim s = "" <-> all_space s = true.
Proof. unfold JS.trim. rewrite trim_end_empty, all_space_trim_start. reflexivity. Qed.

Lemma split_lines_not_nil (s : string) : JS.split_lines s <> [].
Proof.
  induction s as [|c r IH]; cbn [JS.split_lines]; [discriminate |].
  destruct (JS.code c =? 10); [discriminate |].
  destruct (JS.split_lines r); discriminate.
Qed.

Lemma code_10 (c : ascii) : JS.code c = 10 -> c = LF.
Proof.
  intros E. unfold LF, JS.fromCharCode. unfold JS.code in E.
  rewrite <- (ascii_N_embedding c). f_equal. lia.
Qed.

Lemma concat_split_lines (s : string) :
  String.concat (String LF "") (JS.split_lines s) = s.
Proof.
  induction s as [|c r IH]; [reflexivity |].
  cbn [JS.split_lines].
  destruct (Z.eqb_spec (JS.code c) 10) as [E | E].
  - pose proof (split_lines_not_nil r) as Hn.
    destruct (JS.split_lines r) as [|line lines] eqn:El; [congruence |].
    cbn [String.concat]. cbn [String.concat] in IH. cbn [String.append].
    rewrite (code_10 c E). f_equal. exact IH.
  - pose proof (split_lines_not_nil r) as Hn.
    destruct (JS.split_lines r) as [|line lines] eqn:El; [congruence |].
    destruct lines as [|l2 lines].
    + cbn [String.concat] in *. rewrite IH. reflexivity.
    + change (String c (line ++ String LF "" ++
                        String.concat (String LF "") (l2 :: lines)) = String c r).
      f_equal. exact IH.
Qed.

Lemma length_split_lines (s : string) : length (JS.split_lines s) = S (count_LF s).
Proof.
  induction s as [|c r IH]; [reflexivity |].
  cbn [JS.split_lines count_LF].
  destruct (JS.code c =? 10).
  - cbn [length]. rewrite IH. reflexivity.
  - pose proof (split_lines_not_nil r) as Hn.
    destruct (JS.split_lines r) as [|line lines]; [congruence |].
    cbn [length] in *. exact IH.
Qed.

Lemma split_lines_no_LF (s : string) :
  Forall (fun line => count_LF line = 0%nat) (JS.split_lines s).
Proof.
  induction s as [|c r IH]; cbn [JS.split_lines].
  - repeat constructor.
  - destruct (JS.code c =? 10) eqn:E.
    + constructor; [reflexivity | exact IH].
    + destruct (JS.split_lines r) as [|line lines]; [repeat constructor; cbn; rewrite E; reflexivity |].
      inversion IH as [|? ? Hl Hls]; subst.
      constructor; [cbn [count_LF]; rewrite E, Hl; reflexivity | exact Hls].
Qed.

End ChatPanel.

(** X22. The chat form sends a message exactly when the input holds a character
    that is not white space and nothing is in flight; what is sent is the
    input as typed, not trimmed, and the box is cleared.  Otherwise nothing
    is sent and the box keeps its content. *)
Theorem chat_submit_sends_nonblank (input : string) (isSubmitting isThinking : bool) :
  (all_space input = false -> isSubmitting = false -> isThinking = false ->
   Chat.handleSubmit input isSubmitting isThinking = ("", Some input)) /\
  (all_space input = true \/ isSubmitting = true \/ isThinking = true ->
   Chat.handleSubmit input isSubmitting isThinking = (input, None)).
Proof.
  unfold Chat.handleSubmit.
  assert (Ht : truthy (JS.trim input) = negb (all_space input)).
  { destruct (all_space input) eqn:E.
    - apply trim_empty in E. rewrite E. reflexivity.
    - destruct (JS.trim input) eqn:Et; [| reflexivity].
      apply trim_empty in Et. congruence. }
  rewrite Ht, negb_involutive. split.
  - intros -> -> ->. reflexivity.
  - intros [-> | [-> | ->]]; [reflexivity | |].
    + rewrite orb_true_r. reflexivity.
    + rewrite !orb_true_r. reflexivity.
Qed.

Lemma chat_submit_sends_nonblank_witness :
  all_space "  Q16 " = false /\
  Chat.handleSubmit "  Q16 " false false = ("", Some "  Q16 ") /\
  all_space "   " = true /\ Chat.handleSubmit "   " false false = ("   ", None).
Proof.
  destruct (chat_submit_sends_nonblank "  Q16 " false false) as [Hsend _].
  destruct (chat_submit_sends_nonblank "   " false false) as [_ Hkeep].
  split; [reflexivity |]. split; [apply Hsend; reflexivity |].
  split; [reflexivity |]. apply Hkeep. left. reflexivity.
Defined.

(** X23. [formatMessage] loses nothing: joining its lines with line feeds gives
    the content back; no line contains a line feed; there is one more line
    than there are line feeds, and a line break follows every line but the
    last. *)
Theorem formatMessage_round_trip (content : string) :
  String.concat (String LF "") (map fst (Chat.formatMessage content)) = content /\
  Forall (fun line => count_LF line = 0%nat) (map fst (Chat.formatMessage content)) /\
  length (Chat.formatMessage content) = S (count_LF content) /\
  (forall i line br, Chat.formatMessage content !! i = Some (line, br) ->
     (br = true <-> (i < count_LF content)%nat)).
Proof.
  unfold Chat.formatMessage. cbv zeta.
  assert (Hfst : forall (g : nat -> bool) (l : list string),
            map fst (imap (fun i line => (line, g i)) l) = l).
  { intros g l. revert g. induction l as [|x l IH]; intros g; [reflexivity |].
    cbn [imap map fst]. f_equal. apply (IH (fun i => g (S i))). }
  rewrite Hfst. split; [apply concat_split_lines |].
  split; [apply split_lines_no_LF |].
  split; [rewrite length_imap; apply length_split_lines |].
  intros i line br Hi. rewrite list_lookup_imap in Hi.
  destruct (JS.split_lines content !! i) as [x|]; [| discriminate Hi].
  cbn in Hi. injection Hi as _ <-.
  rewrite length_split_lines. cbn [Nat.sub]. rewrite Nat.sub_0_r.
  apply Nat.ltb_lt.
Qed.

(** ** Hovering, from the board to the chat panel *)

(** Hovering over an intersection changes only the page's preview
    coordinate; the chat panel then shows the faint line with that
    intersection's coordinate unless a reply is awaited, and shows none
    after the pointer has left the board. *)
Theorem hover_preview (board_size row col : Z) (st : Page.State) :
  let over := fst (Page.handleHoverChange (snd (GoBoard.handleCellHover board_size row col)) st) in
  let left := fst (Page.handleHoverChange (snd GoBoard.handleCellLeave) over) in
  over = Page.setPreviewCoord (Some (GoBoard.getCoordinate board_size row col)) st /\
  Chat.preview (Page.previewCoord over) (Page.isThinking over) =
    (if Page.isThinking st then None
     else Some ("My move: " ++ GoBoard.getCoordinate board_size row col)) /\
  Chat.preview (Page.previewCoord left) (Page.isThinking left) = None /\
  Page.messages left = Page.messages st /\ Page.boardState left = Page.boardState st.
Proof.
  cbv zeta. destruct st. cbn.
  destruct isThinking; repeat split; reflexivity.
Qed.

(** ** Setup form *)

(** X24. Every preset of the form yields a configuration: the handicap is 0 for
    the two even presets and equals the preset's number of stones (2 to 9,
    never 1) otherwise, every handicap preset has komi 0.5, and the board
    size, colour and persona are the form's.  With Black the engine moves
    first exactly on the handicap presets, with White exactly on the even
    ones.  An index outside the table makes the handler throw. *)
Theorem setup_presets (form : GameSetup.Form) :
  ((GameSetup.gameTypeIndex form < 10)%nat ->
   exists config, GameSetup.handleSubmit form = Return config /\
     Page.boardSize config = GameSetup.boardSize form /\
     Page.userColor config = GameSetup.userColor form /\
     Page.persona config = GameSetup.persona form /\
     Page.handicap config =
       (if (GameSetup.gameTypeIndex form <? 2)%nat then 0
        else Z.of_nat (GameSetup.gameTypeIndex form)) /\
     (0 < Page.handicap config -> Page.cfg_komi config = 0.5%float) /\
     (GameSetup.userColor form = "B" ->
      Page.llmShouldMoveFirst config = negb (GameSetup.gameTypeIndex form <? 2)%nat) /\
     (GameSetup.userColor form = "W" ->
      Page.llmShouldMoveFirst config = (GameSetup.gameTypeIndex form <? 2)%nat)) /\
  ((10 <= GameSetup.gameTypeIndex form)%nat ->
   GameSetup.handleSubmit form = Throw TypeError).
Proof.
  destruct form as [size index colour persona]. cbn [GameSetup.gameTypeIndex
    GameSetup.boardSize GameSetup.userColor GameSetup.persona].
  split.
  - intros Hi. unfold GameSetup.handleSubmit, Page.llmShouldMoveFirst.
    cbn [GameSetup.gameTypeIndex GameSetup.boardSize GameSetup.userColor
      GameSetup.persona].
    do 10 (destruct index as [|index];
           [eexists; split; [reflexivity |];
            cbn; repeat split; try reflexivity; try lia; intros ->; reflexivity |]).
    lia.
  - intros Hi. unfold GameSetup.handleSubmit. cbn [GameSetup.gameTypeIndex].
    do 10 (destruct index as [|index]; [lia |]). reflexivity.
Qed.

Lemma setup_presets_witness :
  (GameSetup.gameTypeIndex GameSetup.initialForm < 10)%nat /\
  exists config, GameSetup.handleSubmit GameSetup.initialForm = Return config /\
    Page.handicap config = 0 /\ Page.llmShouldMoveFirst config = false.
Proof.
  assert (Hi : (GameSetup.gameTypeIndex GameSetup.initialForm < 10)%nat) by (cbn; lia).
  destruct (setup_presets GameSetup.initialForm) as [H _].
  destruct (H Hi) as (config & Hc & _ & _ & _ & Hh & _ & HB & _).
  split; [exact Hi |]. exists config. split; [exact Hc |]. split; [exact Hh |].
  apply HB. reflexivity.
Defined.

(** ** API client: what a board from the engine is *)

(** X25. A non-null result of the engine board fetch always carries a non-empty
    grid, and that grid is the [board] array of the [result] envelope of a
    response with a success status: the page's own test for an empty grid
    can never fail on it.  Its size is the envelope's [board_size] when
    that is truthy and the number of rows otherwise. *)
Theorem getKataGoBoardState_some (MCP_BASE : string) (network : Api.request -> Api.outcome)
  (eb : Api.EngineBoard) :
  Api.getKataGoBoardState MCP_BASE network = Return (Some eb) ->
  Api.board eb <> [] /\
  exists res data result,
    network (Api.getKataGoBoardState_request MCP_BASE) = Api.Responded res /\
    Api.ok res = true /\ Api.json_body res = Some data /\
    get data "result" = Return result /\ truthy result = true /\
    get result "board" = Return (Arr (Api.board eb)) /\
    exists size, get result "board_size" = Return size /\
      Api.board_size eb =
        (if truthy size then size else Num (number_of_length (Api.board eb))).
Proof.
  unfold Api.getKataGoBoardState, Api.fetch.
  destruct (network _) as [res | |]; cbn [mbind completion_bind try_catch];
    [| discriminate | discriminate].
  destruct (Api.ok res) eqn:Hok; cbn [negb]; cbv iota; [| discriminate].
  unfold Api.json.
  destruct (Api.json_body res) as [data|] eqn:Hdata; cbn [mbind completion_bind try_catch];
    [| discriminate].
  destruct (get data "result") as [result | e] eqn:Hresult;
    cbn [mbind completion_bind try_catch]; [| discriminate].
  destruct (truthy result) eqn:Ht; cbn [negb]; cbv iota; [| discriminate].
  destruct (get result "board") as [board | e] eqn:Hboard;
    cbn [mbind completion_bind try_catch]; [| discriminate].
  destruct board as [| | | | | rows |]; try discriminate.
  destruct rows as [|row rows]; cbn [length Nat.eqb]; cbv iota; [discriminate |].
  destruct (get result "board_size") as [size | e] eqn:Hsize;
    cbn [mbind completion_bind try_catch]; [| discriminate].
  intros [= <-]. cbn [Api.board Api.board_size]. split; [discriminate |].
  exists res, data, result. do 6 (split; [first [assumption | reflexivity] |]).
  exists size. split; [exact Hsize | reflexivity].
Qed.

Lemma getKataGoBoardState_some_witness :
  exists eb,
    Api.getKataGoBoardState "http://localhost:3001"
      (fun _ => Api.Responded (engine_reply (Obj [("board", Arr [Arr [Str "."]])]))) =
      Return (Some eb) /\
    Api.board eb <> [].
Proof.
  eexists. split; [reflexivity |].
  destruct (getKataGoBoardState_some "http://localhost:3001"
              (fun _ => Api.Responded (engine_reply (Obj [("board", Arr [Arr [Str "."]])])))
              _ eq_refl) as [Hboard _].
  exact Hboard.
Defined.

(** ** Pixel layout *)

(** X26. Everything drawn for an intersection is centred on it: in the
    coordinates of the component, the centre of the stone cell of
    (r, c), the star circle of (r, c), and the centres of the labels of
    column [c] and row [r] all lie on the crossing of vertical line [c]
    and horizontal line [r]; the grid lines span exactly the board
    rectangle, and on the board every stone cell lies inside the
    component. *)
Theorem pieces_sit_on_intersections (board_size r c : Z) :
  let lineX := GoBoard.left (GoBoard.svgBox board_size) +
               GoBoard.x1 (GoBoard.verticalLine board_size c) in
  let lineY := GoBoard.top (GoBoard.svgBox board_size) +
               GoBoard.y1 (GoBoard.horizontalLine board_size r) in
  let stone := GoBoard.stoneBox r c in
  let stoneLeft := GoBoard.left (GoBoard.overlayBox board_size) + GoBoard.left stone in
  let stoneTop := GoBoard.top (GoBoard.overlayBox board_size) + GoBoard.top stone in
  stoneLeft + GoBoard.width stone / 2 = lineX /\
  stoneTop + GoBoard.height stone / 2 = lineY /\
  GoBoard.left (GoBoard.svgBox board_size) + fst (GoBoard.starCircle r c) = lineX /\
  GoBoard.top (GoBoard.svgBox board_size) + snd (GoBoard.starCircle r c) = lineY /\
  GoBoard.left (GoBoard.colLabelTop c) + GoBoard.width (GoBoard.colLabelTop c) / 2 = lineX /\
  GoBoard.left (GoBoard.colLabelBottom board_size c) +
    GoBoard.width (GoBoard.colLabelBottom board_size c) / 2 = lineX /\
  GoBoard.top (GoBoard.rowLabelLeft r) + GoBoard.height (GoBoard.rowLabelLeft r) / 2 = lineY /\
  GoBoard.top (GoBoard.rowLabelRight board_size r) +
    GoBoard.height (GoBoard.rowLabelRight board_size r) / 2 = lineY /\
  GoBoard.x1 (GoBoard.verticalLine board_size 0) = GoBoard.x1 (GoBoard.horizontalLine board_size r) /\
  GoBoard.x1 (GoBoard.verticalLine board_size (board_size - 1)) =
    GoBoard.x2 (GoBoard.horizontalLine board_size r) /\
  GoBoard.y1 (GoBoard.horizontalLine board_size 0) = GoBoard.y1 (GoBoard.verticalLine board_size c) /\
  GoBoard.y1 (GoBoard.horizontalLine board_size (board_size - 1)) =
    GoBoard.y2 (GoBoard.verticalLine board_size c) /\
  (0 <= r < board_size -> 0 <= c < board_size ->
   0 <= stoneLeft /\ stoneLeft + GoBoard.width stone <= GoBoard.totalWidth board_size /\
   0 <= stoneTop /\ stoneTop + GoBoard.height stone <= GoBoard.totalHeight board_size).
Proof.
  cbv zeta.
  unfold GoBoard.svgBox, GoBoard.overlayBox, GoBoard.stoneBox, GoBoard.starCircle,
    GoBoard.colLabelTop, GoBoard.colLabelBottom, GoBoard.rowLabelLeft,
    GoBoard.rowLabelRight, GoBoard.verticalLine, GoBoard.horizontalLine,
    GoBoard.totalWidth, GoBoard.totalHeight, GoBoard.boardPixelSize,
    GoBoard.cellSize, GoBoard.padding, GoBoard.labelSize.
  cbn [GoBoard.left GoBoard.top GoBoard.width GoBoard.height GoBoard.x1 GoBoard.y1
    GoBoard.x2 GoBoard.y2 fst snd].
  change (32 / 2) with 16. change (24 / 2) with 12.
  repeat split; lia.
Qed.

(** ** API client: one endpoint per game *)

Section GameUrls.




End GameUrls.



(** ** The embedding on sample inputs *)

Example parseInt_samples :
  JS.parseInt "16" None = Some 16 /\ JS.parseInt " 42px" (Some 10) = Some 42 /\
  JS.parseInt "-5" None = Some (-5) /\ JS.parseInt "" None = None /\
  JS.parseInt "ass" (Some 10) = None /\
  JS.parseInt "0x10" None = Some 16 /\ JS.parseInt "0x10" (Some 10) = Some 0.
Proof. repeat split; reflexivity. Qed.

Example toString_samples :
  JS.toString 0 = "0" /\ JS.toString 19 = "19" /\ JS.toString (-4) = "-4".
Proof. repeat split; reflexivity. Qed.

Example getCoordinate_samples :
  GoBoard.getCoordinate 19 0 0 = "A19" /\ GoBoard.getCoordinate 19 18 18 = "T1" /\
  GoBoard.getCoordinate 19 3 15 = "Q16" /\ GoBoard.getCoordinate 9 4 8 = "J5" /\
  GoBoard.getCoordinate 13 12 7 = "H1".
Proof. repeat split; reflexivity. Qed.

Example renderer_parse_samples :
  GoBoard.parseCoordinate 19 "q16" = Some (3, 15) /\
  GoBoard.parseCoordinate 19 "I5" = Some (14, 8) /\
  GoBoard.parseCoordinate 9 "T5" = None /\
  GoBoard.parseCoordinate 19 "pass" = None /\
  GoBoard.parseCoordinate 19 "A" = None /\
  GoBoard.parseCoordinate 19 "A20" = None /\ GoBoard.parseCoordinate 19 "A0" = None.
Proof. repeat split; reflexivity. Qed.

Example page_parse_samples :
  Page.parseCoordinate "q16" 19 = Return (Some 3, 15) /\
  Page.parseCoordinate "I5" 19 = Return (Some 14, 7) /\
  Page.parseCoordinate "T5" 9 = Return (Some 4, 18) /\
  Page.parseCoordinate "pass" 19 = Return (None, 14) /\
  Page.parseCoordinate "A" 19 = Return (None, 0) /\
  Page.parseCoordinate "A20" 19 = Return (Some (-1), 0).
Proof. repeat split; reflexivity. Qed.

Example store_samples :
  GoBoard.store [false; false; false] 1 true = [false; true; false] /\
  GoBoard.store [false] 3 true = [false; false; false; true] /\
  GoBoard.set_star 5 0 [[false]] = Throw TypeError.
Proof. repeat split; reflexivity. Qed.

Example renderStarPoints_other_sizes :
  GoBoard.renderStarPoints 2 = Return [[false; false]; [false; false]] /\
  GoBoard.renderStarPoints (-1) = Throw RangeError /\
  (forall stars, GoBoard.renderStarPoints 5 = Return stars ->
     GoBoard.starPointElements 5 stars = []).
Proof.
  split; [reflexivity |]. split; [reflexivity |].
  intros stars [= <-]. reflexivity.
Qed.

Example engine_reply_samples :
  Api.getKataGoBoardState "http://localhost:3001"
    (fun _ => Api.Responded
       (engine_reply (Obj [("board", Arr [Arr [Str "."; Str "B"]; Arr [Str "W"; Str "."]])])))
  = Return (Some {| Api.board := [Arr [Str "."; Str "B"]; Arr [Str "W"; Str "."]];
                    Api.board_size := Num 2%float |}) /\
  Api.getKataGoBoardState "http://localhost:3001"
    (fun _ => Api.Responded (engine_reply Null)) = Return None /\
  Api.getKataGoBoardState "http://localhost:3001"
    (fun _ => Api.Responded {| Api.status := 200; Api.text := "null";
                               Api.json_body := Some Null |}) = Return None /\
  Api.getKataGoBoardState "http://localhost:3001" (fun _ => Api.NetworkFailure) = Return None.
Proof. repeat split; reflexivity. Qed.

(** A whole turn: the move is accepted and the engine reports its grid. *)
Example turn_with_engine_board :
  Page.handleMoveSubmit
    (sample_env (Return sample_reply) (Some engine_board) (Throw TypeError))
    "Q16" (sample_state (Some (sample_board 6.5%float))) =
  ({| Page.game := Some sample_game;
      Page.boardState :=
        Some (BoardState.mk 19 6.5%float "B" "W" false
                (KataGoBoardState.board engine_board) []);
      Page.messages :=
        [ChatMsg.mk 1000 user "My move: Q16" "2025-01-01T00:00:03.000Z";
         ChatMsg.mk 3001 assistant "Too slow." "2025-01-01T00:00:03.000Z"];
      Page.isSubmitting := false; Page.isThinking := false;
      Page.previewCoord := None; Page.error := None; Page.pendingMove := None;
      Page.lastMoveCoord := Some "D4" |},
   Return tt).
Proof. vm_compute. reflexivity. Qed.

(** An empty coordinate: [parseCoordinate] throws before the [try], and the
    handler's promise rejects with the in-flight flags never set. *)
Example empty_coordinate_rejects :
  Page.handleMoveSubmit
    (sample_env (Return sample_reply) (Some engine_board) (Throw TypeError))
    "" (sample_state None) =
  (Page.setError None (Page.setPreviewCoord None (sample_state None)), Throw TypeError).
Proof. reflexivity. Qed.
